(** * Retrieval-app demo: session map, chat handlers, REST tools, similarity query

    A shallow embedding of the Python sources

    - [langchain_tools_demo/orchestrator/langchain_tools/langchain_tools_orchestrator.py]
    - [langchain_tools_demo/main.py]
    - [vertexai_function_calling_demo/main.py]
    - [demo/langchain_tools_demo/tools.py]
    - [extension_service/datastore/providers/alloydb.py]

    Python dictionaries are finite maps, Python exceptions are values of
    [exn], and code that mutates shared objects before it raises is written
    in a state-and-exception monad whose state survives a raise. *)

From Stdlib Require Import ZArith QArith String Ascii.
From stdpp Require Import gmap strings pretty sorting.

Local Open Scope string_scope.
Local Open Scope list_scope.

(** ** Python exceptions and the effect monad *)

(** The exception classes the sources raise or can meet.  [Exception] stands
    for any other instance of Python's [Exception] class; it carries the text
    that [str(err)] renders.  [BaseException] stands for an exception whose
    class derives from [BaseException] but not from [Exception], such as
    [asyncio.CancelledError], [KeyboardInterrupt] or [SystemExit]: the ones
    that an [except Exception] clause does not catch. *)
Inductive exn : Type :=
  | HTTPException (status_code : Z) (detail : string)
  | KeyError (key : string)
  | NameError (name : string)
  | Exception (msg : string)
  | BaseException (msg : string).

Inductive result (A : Type) : Type :=
  | Return (a : A)
  | Raise (e : exn).
Arguments Return {A} a.
Arguments Raise {A} e.

(** A computation reads and writes a state [S]; a raise keeps every write
    made before it, as in Python. *)
Definition M (S A : Type) : Type := S -> result A * S.

Definition ret {S A} (a : A) : M S A := fun s => (Return a, s).
Definition raise {S A} (e : exn) : M S A := fun s => (Raise e, s).
Definition bind {S A B} (m : M S A) (k : A -> M S B) : M S B :=
  fun s => match m s with
           | (Return a, s') => k a s'
           | (Raise e, s') => (Raise e, s')
           end.
Definition get {S} : M S S := fun s => (Return s, s).
Definition modify {S} (f : S -> S) : M S unit := fun s => (Return tt, f s).

Declare Scope py_scope.
Delimit Scope py_scope with py.
Notation "'let*' x ':=' m 'in' k" := (bind m (fun x => k))
  (at level 10, x name, m at level 100, k at level 200) : py_scope.
Notation "'do' m 'then' k" := (bind m (fun _ => k))
  (at level 10, m at level 100, k at level 200) : py_scope.

(** ** Shared data model *)

(** An [aiohttp.ClientSession] object is identified by its allocation
    number; the store records whether it is still open. *)
Inductive ClientState : Type := Open | Closed.

#[global] Instance ClientState_eq_dec : EqDecision ClientState.
Proof. solve_decision. Defined.

(** [langchain_core.messages]: the two message classes the code builds. *)
Inductive BaseMessage : Type :=
  | HumanMessage (content : string)
  | AIMessage (content : string).

(** What awaiting the agent call gives: a response with its ["output"]
    entry, or an instance of Python's [Exception] class, kept as the text
    that [str(err)] renders in an f-string, or an exception that is not an
    instance of [Exception] (the task is cancelled at the [await], say). *)
Inductive AgentOutcome : Type :=
  | Response (output : string)
  | Raises (err : string)
  | RaisesBase (err : string).

(** ** The LangChain demo: [langchain_tools_orchestrator.py] and its [main.py] *)

Module LangChainTools.

(** An entry of [session["history"]]: the dictionary
    [{"type": t, "data": {"content": c}}]. *)
Record HistoryEntry : Type := { type : string; content : string }.

Definition BASE_HISTORY : HistoryEntry :=
  {| type := "ai";
     content := "I am an SFO Airport Assistant, ready to assist you." |}.

(** [class UserAgent]: the HTTP client it was built with and the agent
    executor, kept as the messages its memory was created from. *)
Record UserAgent : Type := { client : nat; agent : list BaseMessage }.

(** [request.session], a dictionary with the keys ["uuid"] and ["history"]. *)
Record Session : Type :=
  { uuid : option string; history : option (list HistoryEntry) }.

(** The process-wide state: the class attribute [_user_sessions], the
    shared [connector], and the store of the client objects created so far. *)
Record Orchestrator : Type :=
  { _user_sessions : gmap string UserAgent;
    connector : bool;
    clients : gmap nat ClientState }.

(** What a handler can touch: the orchestrator and the request's session. *)
Record Ctx : Type := { app : Orchestrator; session : Session }.

Definition set_user_sessions (f : gmap string UserAgent -> gmap string UserAgent)
    (c : Ctx) : Ctx :=
  {| app := {| _user_sessions := f (_user_sessions (app c));
               connector := connector (app c);
               clients := clients (app c) |};
     session := session c |}.

Definition set_connector (b : bool) (c : Ctx) : Ctx :=
  {| app := {| _user_sessions := _user_sessions (app c);
               connector := b;
               clients := clients (app c) |};
     session := session c |}.

Definition set_clients (f : gmap nat ClientState -> gmap nat ClientState)
    (c : Ctx) : Ctx :=
  {| app := {| _user_sessions := _user_sessions (app c);
               connector := connector (app c);
               clients := f (clients (app c)) |};
     session := session c |}.

Definition set_session (f : Session -> Session) (c : Ctx) : Ctx :=
  {| app := app c; session := f (session c) |}.

(** [request.session["uuid"]] and [request.session["history"]] *)
Definition session_uuid : M Ctx string :=
  fun c => match uuid (session c) with
           | Some id => (Return id, c)
           | None => (Raise (KeyError "uuid"), c)
           end.

Definition session_history : M Ctx (list HistoryEntry) :=
  fun c => match history (session c) with
           | Some h => (Return h, c)
           | None => (Raise (KeyError "history"), c)
           end.

(** [request.session["history"].append(entry)] *)
Definition session_history_append (entry : HistoryEntry) : M Ctx unit :=
  (let* h := session_history in
   modify (set_session (fun s =>
     {| uuid := uuid s; history := Some (h ++ [entry]) |})))%py.

(** [request.session.clear()] *)
Definition session_clear : M Ctx unit :=
  modify (set_session (fun _ => {| uuid := None; history := None |})).

Section Orchestrator.

(** [self.agent.ainvoke({"input": prompt})]: the language model behind the
    agent executor decides the outcome. *)
Variable ainvoke : UserAgent -> string -> AgentOutcome.
(** [markdown.markdown] *)
Variable markdown : string -> string.

(** [UserAgent.close]: [await self.client.close()] *)
Definition close (self : UserAgent) : M Ctx unit :=
  modify (set_clients (fun cl => <[client self := Closed]> cl)).

(** [UserAgent.invoke]: [except Exception] catches the instances of
    [Exception] and lets any other exception through.  What the executor
    appends to its own memory when a call is answered is not part of the
    model: [agent] stays the history the executor was created from. *)
Definition invoke (self : UserAgent) (prompt : string) : M Ctx string :=
  match ainvoke self prompt with
  | Response output => ret output
  | Raises err =>
      raise (HTTPException 500%Z ("Error invoking agent: " +:+ err))
  | RaisesBase err => raise (BaseException err)
  end.

Definition user_session_exist (id : string) : M Ctx bool :=
  fun c => (Return (bool_decide (is_Some (_user_sessions (app c) !! id))), c).

Definition get_user_session (id : string) : M Ctx UserAgent :=
  fun c => match _user_sessions (app c) !! id with
           | Some a => (Return a, c)
           | None => (Raise (KeyError id), c)
           end.

Definition get_connector : M Ctx unit :=
  fun c => if connector (app c) then (Return tt, c)
           else (Return tt, set_connector true c).

(** [create_client_session]: a new [ClientSession] object, open, on the
    shared connector. *)
Definition create_client_session : M Ctx nat :=
  (do get_connector then
   let* c := get in
   let new := fresh (dom (clients (app c))) in
   do modify (set_clients (fun cl => <[new := Open]> cl)) then
   ret new)%py.

Definition parse_messages (datas : list HistoryEntry) : list BaseMessage :=
  flat_map (fun data =>
    (if decide (type data = "human")
     then [HumanMessage (content data)] else []) ++
    (if decide (type data = "ai")
     then [AIMessage (content data)] else [])) datas.

(** [UserAgent.initialize_agent]: tools and prompt are built from the
    client alone and stay inside the executor. *)
Definition initialize_agent (client : nat) (history : list BaseMessage)
    : UserAgent :=
  {| client := client; agent := history |}.

(** [user_session_create(session)]; [uuid4] is the value
    [str(uuid.uuid4())] would take. *)
Definition user_session_create (uuid4 : string) : M Ctx unit :=
  (do modify (set_session (fun s =>
        match uuid s with
        | None => {| uuid := Some uuid4; history := history s |}
        | Some _ => s
        end)) then
   let* id := session_uuid in
   do modify (set_session (fun s =>
        match history s with
        | None => {| uuid := uuid s; history := Some [BASE_HISTORY] |}
        | Some _ => s
        end)) then
   let* h := session_history in
   let history := parse_messages h in
   let* client := create_client_session in
   let agent := initialize_agent client history in
   modify (set_user_sessions (fun m => <[id := agent]> m)))%py.

Definition user_session_invoke (id prompt : string) : M Ctx string :=
  (let* user_session := get_user_session id in
   invoke user_session prompt)%py.

Definition user_session_reset (id : string) : M Ctx unit :=
  (let* user_session := get_user_session id in
   do close user_session then
   modify (set_user_sessions (fun m => delete id m)))%py.

(** [close_clients]: the module never binds the name [asyncio], so the
    first use of it raises before any [close()] coroutine is created. *)
Definition close_clients : M Ctx unit :=
  raise (NameError "asyncio").

(** *** [main.py] *)

(** [index]: returns the messages handed to the template. *)
Definition index (uuid4 : string) : M Ctx (list HistoryEntry) :=
  (do user_session_create uuid4 then
   session_history)%py.

Definition chat_handler (prompt : string) : M Ctx string :=
  if decide (prompt = "") then
    raise (HTTPException 400%Z "Error: No user query")
  else
    (let* c := get in
     match uuid (session c) with
     | None =>
         raise (HTTPException 400%Z
                  "Error: Invoke index handler before start chatting")
     | Some _ =>
         do session_history_append {| type := "human"; content := prompt |} then
         let* id := session_uuid in
         let* output := user_session_invoke id prompt in
         do session_history_append {| type := "ai"; content := output |} then
         ret (markdown output)
     end)%py.

Definition reset : M Ctx unit :=
  (let* c := get in
   match uuid (session c) with
   | None => raise (HTTPException 400%Z "No session to reset.")
   | Some id =>
       let* found := user_session_exist id in
       if negb found then
         raise (HTTPException 500%Z "Current agent not found")
       else
         do user_session_reset id then
         session_clear
   end)%py.

End Orchestrator.

(** The state at process start. *)
Definition init : Orchestrator :=
  {| _user_sessions := ∅; connector := false; clients := ∅ |}.

End LangChainTools.

(** ** The Vertex AI demo: [vertexai_function_calling_demo/main.py] *)

Module VertexAI.

(** An entry of [session["messages"]]: [{"role": r, "content": c}]. *)
Record ChatMessage : Type := { role : string; content : string }.

Definition BASE_HISTORY : list ChatMessage :=
  [{| role := "assistant"; content := "How can I help you?" |}].

(** A value of the map [llm.chat_assistants]; the handlers use its
    [client] attribute and its [invoke] method. *)
Record ChatAssistant : Type := { client : nat }.

Record Session : Type :=
  { uuid : option string; messages : option (list ChatMessage) }.

(** The process-wide state: the global [chat_assistants] and the store of
    the client objects created so far. *)
Record App : Type :=
  { chat_assistants : gmap string ChatAssistant;
    clients : gmap nat ClientState }.

Record Ctx : Type := { app : App; session : Session }.

Definition set_chat_assistants
    (f : gmap string ChatAssistant -> gmap string ChatAssistant)
    (c : Ctx) : Ctx :=
  {| app := {| chat_assistants := f (chat_assistants (app c));
               clients := clients (app c) |};
     session := session c |}.

Definition set_clients (f : gmap nat ClientState -> gmap nat ClientState)
    (c : Ctx) : Ctx :=
  {| app := {| chat_assistants := chat_assistants (app c);
               clients := f (clients (app c)) |};
     session := session c |}.

Definition set_session (f : Session -> Session) (c : Ctx) : Ctx :=
  {| app := app c; session := f (session c) |}.

Definition session_uuid : M Ctx string :=
  fun c => match uuid (session c) with
           | Some id => (Return id, c)
           | None => (Raise (KeyError "uuid"), c)
           end.

Definition session_messages : M Ctx (list ChatMessage) :=
  fun c => match messages (session c) with
           | Some h => (Return h, c)
           | None => (Raise (KeyError "messages"), c)
           end.

(** [request.session["messages"] += more] *)
Definition session_messages_extend (more : list ChatMessage) : M Ctx unit :=
  (let* h := session_messages in
   modify (set_session (fun s =>
     {| uuid := uuid s; messages := Some (h ++ more) |})))%py.

Definition session_clear : M Ctx unit :=
  modify (set_session (fun _ => {| uuid := None; messages := None |})).

(** [chat_assistants[id]] *)
Definition chat_assistants_get (id : string) : M Ctx ChatAssistant :=
  fun c => match chat_assistants (app c) !! id with
           | Some a => (Return a, c)
           | None => (Raise (KeyError id), c)
           end.

(** Modelled from the spec: [llm.init_chat_assistant] is imported from a
    module that is not among the sources.  The spec's data model says that
    an agent instance owns one HTTP client, so the call makes a new, open
    client and an assistant holding it. *)
Definition init_chat_assistant : M Ctx ChatAssistant :=
  (let* c := get in
   let new := fresh (dom (clients (app c))) in
   do modify (set_clients (fun cl => <[new := Open]> cl)) then
   ret {| client := new |})%py.

Section Handlers.

(** [chat_assistant.invoke(prompt)], defined in the absent [llm] module:
    the outcome is the model's. *)
Variable invoke : ChatAssistant -> string -> AgentOutcome.
Variable markdown : string -> string.

Definition index (uuid4 : string) : M Ctx (list ChatMessage) :=
  (do modify (set_session (fun s =>
        match uuid s with
        | None => {| uuid := Some uuid4; messages := Some BASE_HISTORY |}
        | Some _ => s
        end)) then
   let* id := session_uuid in
   let* c := get in
   do (match chat_assistants (app c) !! id with
       | Some chat_assistant => ret tt
       | None =>
           let* chat_assistant := init_chat_assistant in
           modify (set_chat_assistants (fun m => <[id := chat_assistant]> m))
       end) then
   session_messages)%py.

Definition chat_handler (prompt : string) : M Ctx string :=
  if decide (prompt = "") then
    raise (HTTPException 400%Z "Error: No user query")
  else
    (let* c := get in
     match uuid (session c) with
     | None =>
         raise (HTTPException 400%Z
                  "Error: Invoke index handler before start chatting")
     | Some _ =>
         do session_messages_extend [{| role := "user"; content := prompt |}] then
         let* id := session_uuid in
         let* chat_assistant := chat_assistants_get id in
         match invoke chat_assistant prompt with
         | Response output =>
             do session_messages_extend
                  [{| role := "assistant"; content := output |}] then
             ret (markdown output)
         | Raises err =>
             raise (HTTPException 500%Z ("Error invoking agent: " +:+ err))
         | RaisesBase err => raise (BaseException err)
         end
     end)%py.

Definition reset : M Ctx unit :=
  (let* id := session_uuid in
   let* c := get in
   match chat_assistants (app c) !! id with
   | None => raise (HTTPException 500%Z "Current agent not found")
   | Some chat_assistant =>
       do modify (set_clients (fun cl => <[client chat_assistant := Closed]> cl)) then
       do modify (set_chat_assistants (fun m => delete id m)) then
       session_clear
   end)%py.

End Handlers.

End VertexAI.

(** ** The REST tools: [tools.py] *)

Module Tools.

(** A query-parameter value: [None] or a string. *)
Inductive PyValue : Type := PyNone | PyStr (s : string).

#[global] Instance PyValue_eq_dec : EqDecision PyValue.
Proof. solve_decision. Defined.

Definition filter_none_values (params : gmap string PyValue)
    : gmap string PyValue :=
  filter (fun kv => kv.2 ≠ PyNone) params.

(** Python's [sub in s] on strings. *)
Fixpoint contains (sub s : string) : bool :=
  if String.prefix sub s then true
  else match s with
       | EmptyString => false
       | String _ s' => contains sub s'
       end.

(** A [client.get] call as it leaves the tool. *)
Record Request : Type :=
  { url : string;
    params : gmap string PyValue;
    headers : gmap string string }.

Definition newline : string := String "010"%char EmptyString.

Section Tools.

(** The module constant [BASE_URL], read from the environment. *)
Variable BASE_URL : string.
(** The value [get_id_token()] returns. *)
Variable id_token : string.

(** [get_headers(client)], on the client's header dictionary. *)
Definition get_headers (client_headers : gmap string string)
    : gmap string string :=
  let headers := client_headers in
  if negb (contains "http://" BASE_URL) then
    <["Authorization" := "Bearer " +:+ id_token]> headers
  else headers.

(** The elements of the JSON list that the downstream service answers
    with, and how an f-string renders one of them. *)
Variable Item : Type.
Variable py_str : Item -> string.
(** [await client.get(...)] followed by [await response.json()]. *)
Variable client_get : Request -> list Item.

Definition search_airports_request (client_headers : gmap string string)
    (country city name : PyValue) : Request :=
  let params : gmap string PyValue :=
    <["country" := country]> (<["city" := city]> (<["name" := name]> ∅)) in
  {| url := BASE_URL +:+ "/airports/search";
     params := filter_none_values params;
     headers := get_headers client_headers |}.

Definition search_airports (client_headers : gmap string string)
    (country city name : PyValue) : string :=
  let response_json :=
    client_get (search_airports_request client_headers country city name) in
  let num := 2 in
  if decide (length response_json < 1) then
    "There are no airports matching that query. Let the user know there are no results."
  else if decide (num < length response_json) then
    "There are " +:+ pretty (length response_json) +:+
    " airports matching that query. Here are the first " +:+ pretty num +:+
    " results:" +:+ newline +:+
    String.concat " " (py_str <$> take num response_json)
  else
    String.concat newline (py_str <$> response_json).

Definition list_flights_request (client_headers : gmap string string)
    (departure_airport arrival_airport date : PyValue) : Request :=
  let params : gmap string PyValue :=
    <["departure_airport" := departure_airport]>
      (<["arrival_airport" := arrival_airport]> (<["date" := date]> ∅)) in
  {| url := BASE_URL +:+ "/flights/search";
     params := filter_none_values params;
     headers := get_headers client_headers |}.

Definition list_flights (client_headers : gmap string string)
    (departure_airport arrival_airport date : PyValue) : string :=
  let response_json :=
    client_get (list_flights_request client_headers
                  departure_airport arrival_airport date) in
  let num := 2 in
  if decide (length response_json < 1) then
    "There are no flights matching that query. Let the user know there are no results."
  else if decide (num < length response_json) then
    "There are " +:+ pretty (length response_json) +:+
    " flights matching that query. Here are the first " +:+ pretty num +:+
    " results:" +:+ newline +:+
    String.concat " " (py_str <$> take num response_json)
  else
    String.concat newline (py_str <$> response_json).

End Tools.

End Tools.

(** ** The datastore provider: [alloydb.py] *)

Module AlloyDB.

#[global] Instance Qlt_decision (x y : Q) : Decision (x < y)%Q.
Proof. unfold Qlt. apply _. Defined.

#[global] Instance Qle_decision (x y : Q) : Decision (x <= y)%Q.
Proof. unfold Qle. apply _. Defined.

(** A row of [products], with the columns of its [CREATE TABLE]. *)
Module products.
Record row : Type :=
  { product_id : string;
    product_name : string;
    description : string;
    list_price : Q }.
End products.

(** A row of the dictionaries the search returns: the three selected
    columns. *)
Record result_row : Type :=
  { product_name : string; list_price : Q; description : string }.

Section Search.

(** The [vector(768)] column type and pgvector's cosine-distance operator
    [<=>]; its value is taken as a rational. *)
Variable vector : Type.
Variable cosine_distance : vector -> vector -> Q.

(** A row of [product_embeddings]. *)
Record embedding_row : Type :=
  { product_id : string; content : string; embedding : vector }.

Record Database : Type :=
  { products_table : list products.row;
    product_embeddings : list embedding_row }.

(** [1 - (embedding <=> $1) AS similarity] *)
Definition similarity (query_embedding : vector) (e : embedding_row) : Q :=
  (1 - cosine_distance (embedding e) query_embedding)%Q.

(** [ORDER BY similarity DESC]: a precedes b when b's similarity is not
    above a's. *)
Definition by_similarity_desc (query_embedding : vector)
    : relation embedding_row :=
  fun a b => (similarity query_embedding b <= similarity query_embedding a)%Q.

#[global] Instance by_similarity_desc_dec q a b
  : Decision (by_similarity_desc q a b).
Proof. unfold by_similarity_desc. apply _. Defined.

(** The common table expression [vector_matches], for a limit that the
    server accepts.  Among rows of equal similarity the SQL leaves the
    order, and so the choice at the limit, open; the model takes the order
    of a stable sort. *)
Definition vector_matches (db : Database) (query_embedding : vector)
    (similarity_theshold : Q) (top_k : nat) : list embedding_row :=
  take top_k
    (merge_sort (by_similarity_desc query_embedding)
       (filter (fun e => (similarity_theshold < similarity query_embedding e)%Q)
          (product_embeddings db))).

(** [semantic_similiarity_search]: PostgreSQL rejects a negative [LIMIT]
    and the driver raises.  The outer [SELECT] has no [ORDER BY]; the model
    lists the rows in table order.  The [timeout] of the call is not
    modelled. *)
Definition semantic_similiarity_search (db : Database)
    (query_embedding : vector) (similarity_theshold : Q) (top_k : Z)
    : result (list result_row) :=
  if decide (top_k < 0)%Z then
    Raise (Exception "LIMIT must not be negative")
  else
    let matches :=
      vector_matches db query_embedding similarity_theshold (Z.to_nat top_k) in
    let results :=
      filter (fun p => products.product_id p ∈ (product_id <$> matches))
        (products_table db) in
    Return ((fun r => {| product_name := products.product_name r;
                         list_price := products.list_price r;
                         description := products.description r |})
              <$> results).

End Search.

End AlloyDB.

(** Whether a text has a line break in it. *)
Fixpoint has_newline (s : string) : bool :=
  match s with
  | EmptyString => false
  | String a s' => if Ascii.eqb a "010"%char then true else has_newline s'
  end.

(** ** Operations on the session map *)

Module SessionMap.
Import LangChainTools.

(** Every request-level entry point of the LangChain demo that reads or
    writes [_user_sessions]: the orchestrator's methods and the handlers of
    [main.py] built on them. *)
Inductive operation : Type :=
  | UserSessionCreate (uuid4 : string)
  | UserSessionExist (id : string)
  | UserSessionInvoke (id prompt : string)
  | UserSessionReset (id : string)
  | GetUserSession (id : string)
  | CloseClients
  | Index (uuid4 : string)
  | ChatHandler (prompt : string)
  | Reset.

Section Run.

Variable ainvoke : UserAgent -> string -> AgentOutcome.
Variable markdown : string -> string.

(** The state an operation leaves behind, whether it returns or raises. *)
Definition run (op : operation) (c : Ctx) : Ctx :=
  match op with
  | UserSessionCreate uuid4 => (user_session_create uuid4 c).2
  | UserSessionExist id => (user_session_exist id c).2
  | UserSessionInvoke id prompt => (user_session_invoke ainvoke id prompt c).2
  | UserSessionReset id => (user_session_reset id c).2
  | GetUserSession id => (get_user_session id c).2
  | CloseClients => (close_clients c).2
  | Index uuid4 => (index uuid4 c).2
  | ChatHandler prompt => (chat_handler ainvoke markdown prompt c).2
  | Reset => (reset c).2
  end.

(** The orchestrator states the process can be in: the initial one, and
    any state an operation leaves when run with any request session. *)
Inductive reachable : Orchestrator -> Prop :=
  | reachable_init : reachable init
  | reachable_step o s op :
      reachable o ->
      reachable (app (run op {| app := o; session := s |})).

End Run.

(** Each agent in the map has an open client. *)
Definition agents_have_open_clients (o : Orchestrator) : Prop :=
  forall id a, _user_sessions o !! id = Some a ->
               clients o !! client a = Some Open.

(** No client belongs to two entries of the map. *)
Definition clients_not_shared (o : Orchestrator) : Prop :=
  forall id1 id2 a1 a2,
    _user_sessions o !! id1 = Some a1 ->
    _user_sessions o !! id2 = Some a2 ->
    client a1 = client a2 -> id1 = id2.

Definition session_map_inv (o : Orchestrator) : Prop :=
  agents_have_open_clients o /\ clients_not_shared o.

End SessionMap.

(** ** The two tools of [tools.py] that hand the answer through *)

Module PassThroughTools.
Import Tools.

Section Tools.

Variable BASE_URL : string.
Variable id_token : string.
(** The parsed JSON body, whatever its shape. *)
Variable Json : Type.
Variable client_get : Request -> Json.

Definition search_flights_by_number_request
    (client_headers : gmap string string) (airline flight_number : PyValue)
    : Request :=
  {| url := BASE_URL +:+ "/flights/search";
     params := <["airline" := airline]> (<["flight_number" := flight_number]> ∅);
     headers := get_headers BASE_URL id_token client_headers |}.

Definition search_flights_by_number (client_headers : gmap string string)
    (airline flight_number : PyValue) : Json :=
  client_get
    (search_flights_by_number_request client_headers airline flight_number).

Definition search_amenities_request
    (client_headers : gmap string string) (query : PyValue) : Request :=
  {| url := BASE_URL +:+ "/amenities/search";
     params := <["top_k" := PyStr "5"]> (<["query" := query]> ∅);
     headers := get_headers BASE_URL id_token client_headers |}.

Definition search_amenities (client_headers : gmap string string)
    (query : PyValue) : Json :=
  let response := client_get (search_amenities_request client_headers query) in
  response.

End Tools.

End PassThroughTools.

(** ** The [/login/google] handler of the LangChain [main.py] *)

Module LangChainLogin.
Import LangChainTools.

Section Login.

(** [orchestrator.set_user_session_header], inherited from a base class
    that is not among the sources: any action on the context. *)
Variable set_user_session_header : string -> string -> M Ctx unit.

(** [credential] is [form_data.get("credential")] and [referer] the
    request's ["Referer"] header, when it has one; the result is the URL
    of the redirect. *)
Definition login_google (credential referer : option string) : M Ctx string :=
  match credential with
  | None => raise (HTTPException 401%Z "No user credentials found")
  | Some user_id_token =>
      (let* id := session_uuid in
       do set_user_session_header id user_id_token then
       match referer with
       | Some source_url => ret source_url
       | None => raise (KeyError "Referer")
       end)%py
  end.

End Login.

End LangChainLogin.

(** ** The experiment script: [langchain_tools_demo/test.py] *)

Module Experiment.

Definition questions : list string :=
  [ "What gate is flight 118 at?";
    "What is the status of flight 118? ";
    "What is the status of flight 188? ";
    "What gate is flight UA 1532 at?";
    "What is the status of flight UA 1532? ";
    "What time is my flight leaving today?";
    "What flights are departing SFO?";
    "what flights leave SEA on 11-01-2023?";
    "What flights are leaving from SFO today?";
    "What flights are leaving from SFO on 2023-11-01?";
    "What flights land at SFO today?";
    "What flights arrive at SFO today?";
    "What flights arrive at SFO tomorrow?";
    "Find flights that leave SFO and arrive at SEA";
    "Where does flight 118 land?";
    "What gate does flight 118 land?";
    "What gate does flight UA 1532 land?";
    "Where can I get coffee near gate A6?";
    "Where can I get a snack near the gate for flight 457?";
    "Where can I get a snack near the gate for flight UA1739?";
    "I need a gift";
    "Where is Starbucks?";
    "What are the hours of Amy's Drive Thru?";
    "Where can I get a salad in Terminal 1?";
    "I need headphones";
    "Are there restaurants open at midnight?";
    "Where can I buy a luxury bag?";
    "Where is SFO?";
    "Where is the san Prancisco airport?";
    "What is the code for San Francisco airport?";
    "What is the YWG airport?";
    "hi";
    "How can you help me?";
    "Where are the restrooms?";
    "what are airport hours?";
    "Where is TSA pre-check?" ].

(** What [agent.ainvoke] gives for a question: the response with its
    ["output"] and ["intermediate_steps"] entries as the CSV writer renders
    them, or an exception. *)
Inductive Answer : Type :=
  | Answered (output steps : string)
  | Failed (err : string).

Section Run.

(** A new agent is made for every question; the outcome may depend on the
    position in the list as well as on the question. *)
Variable ainvoke : nat -> string -> Answer.

(** The list [results] after the loop. *)
Definition results : list (list string) :=
  mjoin (imap (fun i question =>
                 match ainvoke i question with
                 | Answered output steps => [[question; output; steps]]
                 | Failed _ => []
                 end) questions).

Definition col_names : list string :=
  ["question"; "response"; "stdout"; "steps"].

(** The rows written to the CSV file, in order. *)
Definition run : list (list string) := col_names :: results.

End Run.

End Experiment.

(** ** Sample states *)

Definition langchain_one_session : LangChainTools.Ctx :=
  {| LangChainTools.app :=
       {| LangChainTools._user_sessions :=
            {[ "s1" := {| LangChainTools.client := 0%nat;
                          LangChainTools.agent := [] |} ]};
          LangChainTools.connector := true;
          LangChainTools.clients := {[ 0%nat := Open ]} |};
     LangChainTools.session :=
       {| LangChainTools.uuid := Some "s1";
          LangChainTools.history :=
            Some [LangChainTools.BASE_HISTORY] |} |}.

Definition vertexai_one_session : VertexAI.Ctx :=
  {| VertexAI.app :=
       {| VertexAI.chat_assistants :=
            {[ "s1" := {| VertexAI.client := 0%nat |} ]};
          VertexAI.clients := {[ 0%nat := Open ]} |};
     VertexAI.session :=
       {| VertexAI.uuid := Some "s1";
          VertexAI.messages := Some VertexAI.BASE_HISTORY |} |}.

(** A catalogue of three products with one embedding each; vectors are
    single rationals and the distance is their difference. *)
Definition sample_distance : Q -> Q -> Q := fun a b => (a - b)%Q.

Definition sample_catalogue : AlloyDB.Database Q :=
  {| AlloyDB.products_table :=
       [ {| AlloyDB.products.product_id := "p1";
            AlloyDB.products.product_name := "kite";
            AlloyDB.products.description := "a kite";
            AlloyDB.products.list_price := 5 |};
         {| AlloyDB.products.product_id := "p2";
            AlloyDB.products.product_name := "ball";
            AlloyDB.products.description := "a ball";
            AlloyDB.products.list_price := 3 |};
         {| AlloyDB.products.product_id := "p3";
            AlloyDB.products.product_name := "drum";
            AlloyDB.products.description := "a drum";
            AlloyDB.products.list_price := 9 |} ];
     AlloyDB.product_embeddings :=
       [ {| AlloyDB.product_id := "p1"; AlloyDB.content := "kite";
            AlloyDB.embedding := (1 # 10)%Q |};
         {| AlloyDB.product_id := "p2"; AlloyDB.content := "ball";
            AlloyDB.embedding := (1 # 2)%Q |};
         {| AlloyDB.product_id := "p3"; AlloyDB.content := "drum";
            AlloyDB.embedding := (3 # 10)%Q |} ] |}.

(** * Properties *)

(** ** Session reset (C1) *)

Lemma langchain_user_session_reset_run (c : LangChainTools.Ctx) id a :
  LangChainTools._user_sessions (LangChainTools.app c) !! id = Some a ->
  LangChainTools.user_session_reset id c =
    (Return tt,
     LangChainTools.set_user_sessions (fun m => delete id m)
       (LangChainTools.set_clients
          (fun cl => <[LangChainTools.client a := Closed]> cl) c)).
Proof.
  intros Ha.
  unfold LangChainTools.user_session_reset, bind,
    LangChainTools.get_user_session, LangChainTools.close, modify.
  by rewrite Ha.
Qed.

Lemma vertexai_reset_run (v : VertexAI.Ctx) id a :
  VertexAI.uuid (VertexAI.session v) = Some id ->
  VertexAI.chat_assistants (VertexAI.app v) !! id = Some a ->
  VertexAI.reset v =
    (Return tt,
     VertexAI.set_session
       (fun _ => {| VertexAI.uuid := None; VertexAI.messages := None |})
       (VertexAI.set_chat_assistants (fun m => delete id m)
          (VertexAI.set_clients
             (fun cl => <[VertexAI.client a := Closed]> cl) v))).
Proof.
  intros Hu Ha.
  unfold VertexAI.reset, bind, VertexAI.session_uuid, get, modify,
    VertexAI.session_clear.
  rewrite Hu. simpl. by rewrite Ha.
Qed.

(** C1.  When a session identifier is in the active map, resetting it
    succeeds and leaves the identifier absent from the map: for the
    orchestrator's [user_session_reset], for the LangChain [/reset] handler
    run with that identifier in the request's session, and for the Vertex AI
    [/reset] handler. *)
Theorem reset_removes_session
    (c : LangChainTools.Ctx) (v : VertexAI.Ctx) (id : string)
    (h : option (list LangChainTools.HistoryEntry)) :
  is_Some (LangChainTools._user_sessions (LangChainTools.app c) !! id) ->
  is_Some (VertexAI.chat_assistants (VertexAI.app v) !! id) ->
  VertexAI.uuid (VertexAI.session v) = Some id ->
  let r1 := LangChainTools.user_session_reset id c in
  let r2 := LangChainTools.reset
              {| LangChainTools.app := LangChainTools.app c;
                 LangChainTools.session :=
                   {| LangChainTools.uuid := Some id;
                      LangChainTools.history := h |} |} in
  let r3 := VertexAI.reset v in
  (r1.1 = Return tt /\
   LangChainTools._user_sessions (LangChainTools.app r1.2) !! id = None) /\
  (r2.1 = Return tt /\
   LangChainTools._user_sessions (LangChainTools.app r2.2) !! id = None) /\
  (r3.1 = Return tt /\
   VertexAI.chat_assistants (VertexAI.app r3.2) !! id = None).
Proof.
  intros [a Ha] [b Hb] Hu. cbv zeta. repeat split.
  - by rewrite (langchain_user_session_reset_run c id a Ha).
  - rewrite (langchain_user_session_reset_run c id a Ha). simpl.
    apply lookup_delete_eq.
  - unfold LangChainTools.reset, bind, get, LangChainTools.user_session_exist.
    simpl. rewrite Ha. rewrite bool_decide_eq_true_2 by eauto. simpl.
    rewrite (langchain_user_session_reset_run _ id a) by done. done.
  - unfold LangChainTools.reset, bind, get, LangChainTools.user_session_exist.
    simpl. rewrite Ha. rewrite bool_decide_eq_true_2 by eauto. simpl.
    rewrite (langchain_user_session_reset_run _ id a) by done. simpl.
    apply lookup_delete_eq.
  - by rewrite (vertexai_reset_run v id b Hu Hb).
  - rewrite (vertexai_reset_run v id b Hu Hb). simpl. apply lookup_delete_eq.
Qed.

Lemma reset_removes_session_witness :
  LangChainTools._user_sessions
    (LangChainTools.app
       (LangChainTools.user_session_reset "s1" langchain_one_session).2)
    !! "s1" = None.
Proof.
  refine (proj2 (proj1
    (reset_removes_session langchain_one_session vertexai_one_session "s1"
       None _ _ _))).
  - exists {| LangChainTools.client := 0%nat; LangChainTools.agent := [] |}.
    reflexivity.
  - exists {| VertexAI.client := 0%nat |}. reflexivity.
  - reflexivity.
Defined.

(** ** The [/chat] handlers (C2, C3, C9) *)

Section ChatHandlers.

Variable ainvoke : LangChainTools.UserAgent -> string -> AgentOutcome.
Variable invoke : VertexAI.ChatAssistant -> string -> AgentOutcome.
Variable markdown : string -> string.

(** The LangChain handler, once both guards are passed. *)
Lemma langchain_chat_handler_run (c : LangChainTools.Ctx) prompt id h a :
  prompt <> "" ->
  LangChainTools.uuid (LangChainTools.session c) = Some id ->
  LangChainTools.history (LangChainTools.session c) = Some h ->
  LangChainTools._user_sessions (LangChainTools.app c) !! id = Some a ->
  let human := {| LangChainTools.type := "human";
                  LangChainTools.content := prompt |} in
  LangChainTools.chat_handler ainvoke markdown prompt c =
    match ainvoke a prompt with
    | Response output =>
        (Return (markdown output),
         {| LangChainTools.app := LangChainTools.app c;
            LangChainTools.session :=
              {| LangChainTools.uuid := Some id;
                 LangChainTools.history :=
                   Some ((h ++ [human]) ++
                         [{| LangChainTools.type := "ai";
                             LangChainTools.content := output |}]) |} |})
    | Raises err =>
        (Raise (HTTPException 500%Z ("Error invoking agent: " +:+ err)),
         {| LangChainTools.app := LangChainTools.app c;
            LangChainTools.session :=
              {| LangChainTools.uuid := Some id;
                 LangChainTools.history := Some (h ++ [human]) |} |})
    | RaisesBase err =>
        (Raise (BaseException err),
         {| LangChainTools.app := LangChainTools.app c;
            LangChainTools.session :=
              {| LangChainTools.uuid := Some id;
                 LangChainTools.history := Some (h ++ [human]) |} |})
    end.
Proof.
  intros Hp Hu Hh Ha. cbv zeta.
  unfold LangChainTools.chat_handler. rewrite decide_False by done.
  unfold bind, get. rewrite Hu.
  unfold LangChainTools.session_history_append, bind,
    LangChainTools.session_history, modify. rewrite Hh. simpl.
  unfold LangChainTools.session_uuid. simpl. rewrite Hu. simpl.
  unfold LangChainTools.user_session_invoke, bind,
    LangChainTools.get_user_session. simpl. rewrite Ha.
  unfold LangChainTools.invoke.
  destruct (ainvoke a prompt); unfold ret, raise, LangChainTools.set_session;
    simpl; rewrite Hu; done.
Qed.

(** The Vertex AI handler, once both guards are passed. *)
Lemma vertexai_chat_handler_run (v : VertexAI.Ctx) prompt id h a :
  prompt <> "" ->
  VertexAI.uuid (VertexAI.session v) = Some id ->
  VertexAI.messages (VertexAI.session v) = Some h ->
  VertexAI.chat_assistants (VertexAI.app v) !! id = Some a ->
  let user := {| VertexAI.role := "user"; VertexAI.content := prompt |} in
  VertexAI.chat_handler invoke markdown prompt v =
    match invoke a prompt with
    | Response output =>
        (Return (markdown output),
         {| VertexAI.app := VertexAI.app v;
            VertexAI.session :=
              {| VertexAI.uuid := Some id;
                 VertexAI.messages :=
                   Some ((h ++ [user]) ++
                         [{| VertexAI.role := "assistant";
                             VertexAI.content := output |}]) |} |})
    | Raises err =>
        (Raise (HTTPException 500%Z ("Error invoking agent: " +:+ err)),
         {| VertexAI.app := VertexAI.app v;
            VertexAI.session :=
              {| VertexAI.uuid := Some id;
                 VertexAI.messages := Some (h ++ [user]) |} |})
    | RaisesBase err =>
        (Raise (BaseException err),
         {| VertexAI.app := VertexAI.app v;
            VertexAI.session :=
              {| VertexAI.uuid := Some id;
                 VertexAI.messages := Some (h ++ [user]) |} |})
    end.
Proof.
  intros Hp Hu Hh Ha. cbv zeta.
  unfold VertexAI.chat_handler. rewrite decide_False by done.
  unfold bind, get. rewrite Hu.
  unfold VertexAI.session_messages_extend, bind,
    VertexAI.session_messages, modify. rewrite Hh. simpl.
  unfold VertexAI.session_uuid. simpl. rewrite Hu. simpl.
  unfold VertexAI.chat_assistants_get. simpl. rewrite Ha.
  destruct (invoke a prompt);
    unfold bind, modify, ret, raise, VertexAI.session_messages,
      VertexAI.set_session; simpl; rewrite ?Hu; done.
Qed.

(** No path behind the two guards of the LangChain handler raises an
    [HTTPException] with status 400. *)
Lemma langchain_chat_handler_guarded (c : LangChainTools.Ctx) prompt id :
  prompt <> "" ->
  LangChainTools.uuid (LangChainTools.session c) = Some id ->
  forall detail,
    (LangChainTools.chat_handler ainvoke markdown prompt c).1 <>
      Raise (HTTPException 400%Z detail).
Proof.
  intros Hp Hu detail.
  destruct (LangChainTools.history (LangChainTools.session c)) as [h|] eqn:Hh.
  - destruct (LangChainTools._user_sessions (LangChainTools.app c) !! id)
      as [a|] eqn:Ha.
    + rewrite (langchain_chat_handler_run c prompt id h a) by done.
      destruct (ainvoke a prompt); simpl; congruence.
    + unfold LangChainTools.chat_handler. rewrite decide_False by done.
      unfold bind, get. rewrite Hu.
      unfold LangChainTools.session_history_append, bind,
        LangChainTools.session_history, modify. rewrite Hh. simpl.
      unfold LangChainTools.session_uuid. simpl. rewrite Hu. simpl.
      unfold LangChainTools.user_session_invoke, bind,
        LangChainTools.get_user_session. simpl. rewrite Ha. simpl.
      congruence.
  - unfold LangChainTools.chat_handler. rewrite decide_False by done.
    unfold bind, get. rewrite Hu.
    unfold LangChainTools.session_history_append, bind,
      LangChainTools.session_history. rewrite Hh. simpl. congruence.
Qed.

Lemma vertexai_chat_handler_guarded (v : VertexAI.Ctx) prompt id :
  prompt <> "" ->
  VertexAI.uuid (VertexAI.session v) = Some id ->
  forall detail,
    (VertexAI.chat_handler invoke markdown prompt v).1 <>
      Raise (HTTPException 400%Z detail).
Proof.
  intros Hp Hu detail.
  destruct (VertexAI.messages (VertexAI.session v)) as [h|] eqn:Hh.
  - destruct (VertexAI.chat_assistants (VertexAI.app v) !! id)
      as [a|] eqn:Ha.
    + rewrite (vertexai_chat_handler_run v prompt id h a) by done.
      destruct (invoke a prompt); simpl; congruence.
    + unfold VertexAI.chat_handler. rewrite decide_False by done.
      unfold bind, get. rewrite Hu.
      unfold VertexAI.session_messages_extend, bind,
        VertexAI.session_messages, modify. rewrite Hh. simpl.
      unfold VertexAI.session_uuid. simpl. rewrite Hu. simpl.
      unfold VertexAI.chat_assistants_get. simpl. rewrite Ha. simpl.
      congruence.
  - unfold VertexAI.chat_handler. rewrite decide_False by done.
    unfold bind, get. rewrite Hu.
    unfold VertexAI.session_messages_extend, bind,
      VertexAI.session_messages. rewrite Hh. simpl. congruence.
Qed.

(** C2.  In both demos the [/chat] handler fails with an [HTTPException] of
    status 400 exactly when the prompt is empty or the request's session
    has no ["uuid"] entry; the detail text is then one of the two fixed
    messages, and with a non-empty prompt and a session identifier no
    status-400 exception is raised. *)
Theorem chat_handler_400_iff
    (c : LangChainTools.Ctx) (v : VertexAI.Ctx) (prompt : string) :
  let r1 := (LangChainTools.chat_handler ainvoke markdown prompt c).1 in
  let r2 := (VertexAI.chat_handler invoke markdown prompt v).1 in
  ((exists detail, r1 = Raise (HTTPException 400%Z detail)) <->
   (prompt = "" \/ LangChainTools.uuid (LangChainTools.session c) = None)) /\
  ((exists detail, r2 = Raise (HTTPException 400%Z detail)) <->
   (prompt = "" \/ VertexAI.uuid (VertexAI.session v) = None)) /\
  (forall detail,
     r1 = Raise (HTTPException 400%Z detail) \/
     r2 = Raise (HTTPException 400%Z detail) ->
     detail = "Error: No user query" \/
     detail = "Error: Invoke index handler before start chatting").
Proof.
  cbv zeta. split; [|split].
  - split.
    + intros [detail Hd].
      destruct (decide (prompt = "")) as [|Hp]; [by left|right].
      destruct (LangChainTools.uuid (LangChainTools.session c)) as [id|] eqn:Hu;
        [|done].
      by destruct (langchain_chat_handler_guarded c prompt id Hp Hu detail).
    + intros [->|Hu].
      * by eexists.
      * unfold LangChainTools.chat_handler.
        destruct (decide (prompt = "")); [by eexists|].
        unfold bind, get. rewrite Hu. by eexists.
  - split.
    + intros [detail Hd].
      destruct (decide (prompt = "")) as [|Hp]; [by left|right].
      destruct (VertexAI.uuid (VertexAI.session v)) as [id|] eqn:Hu; [|done].
      by destruct (vertexai_chat_handler_guarded v prompt id Hp Hu detail).
    + intros [->|Hu].
      * by eexists.
      * unfold VertexAI.chat_handler.
        destruct (decide (prompt = "")); [by eexists|].
        unfold bind, get. rewrite Hu. by eexists.
  - intros detail [Hd|Hd].
    + revert Hd. unfold LangChainTools.chat_handler.
      destruct (decide (prompt = "")) as [|Hp].
      { simpl. intros [= <-]. by left. }
      destruct (LangChainTools.uuid (LangChainTools.session c)) as [id|] eqn:Hu.
      * intros Hd. exfalso.
        apply (langchain_chat_handler_guarded c prompt id Hp Hu detail).
        unfold LangChainTools.chat_handler. by rewrite decide_False.
      * unfold bind, get. rewrite Hu. simpl. intros [= <-]. by right.
    + revert Hd. unfold VertexAI.chat_handler.
      destruct (decide (prompt = "")) as [|Hp].
      { simpl. intros [= <-]. by left. }
      destruct (VertexAI.uuid (VertexAI.session v)) as [id|] eqn:Hu.
      * intros Hd. exfalso.
        apply (vertexai_chat_handler_guarded v prompt id Hp Hu detail).
        unfold VertexAI.chat_handler. by rewrite decide_False.
      * unfold bind, get. rewrite Hu. simpl. intros [= <-]. by right.
Qed.

End ChatHandlers.

(** C3, as the code has it.  An exception of the agent call that is an
    instance of [Exception] is turned into an [HTTPException] with status
    500 whose detail is the text ["Error invoking agent: "] followed by the
    rendered exception: by [UserAgent.invoke] in the LangChain demo and by
    the [try] block of the Vertex AI [/chat] handler.  An exception that is
    not an instance of [Exception] is not caught: it leaves
    [UserAgent.invoke] and the Vertex AI handler as it is.  Nothing else
    comes out of [UserAgent.invoke]. *)
Theorem agent_exception_caught_at_boundary
    (ainvoke : LangChainTools.UserAgent -> string -> AgentOutcome)
    (invoke : VertexAI.ChatAssistant -> string -> AgentOutcome)
    (markdown : string -> string)
    (a : LangChainTools.UserAgent) (c : LangChainTools.Ctx)
    (b : VertexAI.ChatAssistant) (v : VertexAI.Ctx)
    (prompt id : string) (h : list VertexAI.ChatMessage) :
  prompt <> "" ->
  VertexAI.uuid (VertexAI.session v) = Some id ->
  VertexAI.messages (VertexAI.session v) = Some h ->
  VertexAI.chat_assistants (VertexAI.app v) !! id = Some b ->
  (forall err, ainvoke a prompt = Raises err ->
     LangChainTools.invoke ainvoke a prompt c =
       (Raise (HTTPException 500%Z ("Error invoking agent: " +:+ err)), c)) /\
  (forall err, ainvoke a prompt = RaisesBase err ->
     LangChainTools.invoke ainvoke a prompt c =
       (Raise (BaseException err), c)) /\
  (forall err, invoke b prompt = Raises err ->
     (VertexAI.chat_handler invoke markdown prompt v).1 =
       Raise (HTTPException 500%Z ("Error invoking agent: " +:+ err))) /\
  (forall err, invoke b prompt = RaisesBase err ->
     (VertexAI.chat_handler invoke markdown prompt v).1 =
       Raise (BaseException err)) /\
  match (LangChainTools.invoke ainvoke a prompt c).1 with
  | Return output => ainvoke a prompt = Response output
  | Raise e =>
      (exists err, ainvoke a prompt = Raises err /\
         e = HTTPException 500%Z ("Error invoking agent: " +:+ err)) \/
      (exists err, ainvoke a prompt = RaisesBase err /\
         e = BaseException err)
  end.
Proof.
  intros Hp Hu Hh Hb. repeat split.
  - intros err Herr. unfold LangChainTools.invoke. by rewrite Herr.
  - intros err Herr. unfold LangChainTools.invoke. by rewrite Herr.
  - intros err Herr.
    rewrite (vertexai_chat_handler_run invoke markdown v prompt id h b)
      by done.
    by rewrite Herr.
  - intros err Herr.
    rewrite (vertexai_chat_handler_run invoke markdown v prompt id h b)
      by done.
    by rewrite Herr.
  - unfold LangChainTools.invoke.
    destruct (ainvoke a prompt) as [output|err|err]; simpl; eauto.
Qed.

Lemma agent_exception_caught_at_boundary_witness :
  (VertexAI.chat_handler (fun _ _ => Raises "model unavailable") id
     "Where is SFO?" vertexai_one_session).1 =
    Raise (HTTPException 500%Z "Error invoking agent: model unavailable").
Proof.
  refine (proj1 (proj2 (proj2
    (agent_exception_caught_at_boundary
       (fun _ _ => Raises "model unavailable")
       (fun _ _ => Raises "model unavailable") id
       {| LangChainTools.client := 0%nat; LangChainTools.agent := [] |}
       langchain_one_session
       {| VertexAI.client := 0%nat |} vertexai_one_session
       "Where is SFO?" "s1" VertexAI.BASE_HISTORY _ _ _ _))) _ _).
  - discriminate.
  - reflexivity.
  - reflexivity.
  - reflexivity.
  - reflexivity.
Defined.

(** C3 as the spec states it fails: when the awaited agent call is
    cancelled, the exception is no instance of [Exception] and passes both
    boundaries uncaught; no status-500 exception is made of it. *)
Lemma agent_cancellation_escapes :
  let r1 := LangChainTools.invoke (fun _ _ => RaisesBase "CancelledError")
              {| LangChainTools.client := 0%nat; LangChainTools.agent := [] |}
              "Where is SFO?" langchain_one_session in
  let r2 := VertexAI.chat_handler (fun _ _ => RaisesBase "CancelledError") id
              "Where is SFO?" vertexai_one_session in
  r1.1 = Raise (BaseException "CancelledError") /\
  r2.1 = Raise (BaseException "CancelledError") /\
  ~ (exists detail, r1.1 = Raise (HTTPException 500%Z detail)) /\
  ~ (exists detail, r2.1 = Raise (HTTPException 500%Z detail)).
Proof.
  cbv zeta. repeat split.
  - intros [detail Hd]. discriminate Hd.
  - intros [detail Hd]. vm_compute in Hd. discriminate Hd.
Qed.



(** ** The session map and its clients (C5, C6) *)

Section SessionMapFacts.
Import LangChainTools SessionMap.

Variable ainvoke : UserAgent -> string -> AgentOutcome.
Variable markdown : string -> string.

(** [user_session_create] always returns, and this is the state it leaves. *)
Lemma user_session_create_run (uuid4 : string) (c : Ctx) :
  let id := default uuid4 (uuid (session c)) in
  let h := default [BASE_HISTORY] (history (session c)) in
  let new := fresh (dom (clients (app c))) in
  user_session_create uuid4 c =
    (Return tt,
     {| app := {| _user_sessions :=
                    <[id := initialize_agent new (parse_messages h)]>
                      (_user_sessions (app c));
                  connector := true;
                  clients := <[new := Open]> (clients (app c)) |};
        session := {| uuid := Some id; history := Some h |} |}).
Proof.
  destruct c as [[m k cl] [[u|] [h|]]]; destruct k; reflexivity.
Qed.

(** [index] leaves the orchestrator as [user_session_create] made it. *)
Lemma index_app uuid4 c :
  app (index uuid4 c).2 = app (user_session_create uuid4 c).2.
Proof.
  unfold index, bind. generalize (user_session_create_run uuid4 c).
  cbv zeta. intros ->. reflexivity.
Qed.

Lemma user_session_invoke_app id prompt c :
  app (user_session_invoke ainvoke id prompt c).2 = app c.
Proof.
  unfold user_session_invoke, bind, get_user_session, invoke.
  destruct (_user_sessions (app c) !! id) as [a|]; [|done].
  by destruct (ainvoke a prompt).
Qed.

Lemma chat_handler_app prompt c :
  app (chat_handler ainvoke markdown prompt c).2 = app c.
Proof.
  unfold chat_handler. destruct (decide (prompt = "")); [done|].
  unfold bind, get.
  destruct (uuid (session c)) as [id|] eqn:Hu; [|done].
  unfold session_history_append, bind, session_history, modify, session_uuid.
  destruct (history (session c)) as [h|] eqn:Hh; [|done].
  simpl. rewrite Hu.
  unfold user_session_invoke, bind, get_user_session, invoke. simpl.
  destruct (_user_sessions (app c) !! id) as [a|]; [|done].
  by destruct (ainvoke a prompt).
Qed.

(** The [/reset] handler either leaves the orchestrator alone or does what
    [user_session_reset] does to it. *)
Lemma reset_app c :
  app (reset c).2 = app c \/
  exists id, app (reset c).2 = app (user_session_reset id c).2.
Proof.
  unfold reset, bind, get, user_session_exist.
  destruct (uuid (session c)) as [id|]; [|by left].
  destruct (_user_sessions (app c) !! id) as [a|] eqn:Ha.
  - right. exists id. rewrite bool_decide_eq_true_2 by eauto. simpl.
    rewrite (langchain_user_session_reset_run c id a Ha). done.
  - left. rewrite bool_decide_eq_false_2; [done|].
    intros [? ?]; congruence.
Qed.

Lemma session_map_inv_init : session_map_inv init.
Proof.
  split.
  - intros id a Hl. unfold init in Hl. simpl in Hl. by rewrite lookup_empty in Hl.
  - intros id1 id2 a1 a2 Hl. unfold init in Hl. simpl in Hl.
    by rewrite lookup_empty in Hl.
Qed.

Lemma session_map_inv_create uuid4 c :
  session_map_inv (app c) ->
  session_map_inv (app (user_session_create uuid4 c).2).
Proof.
  intros [Hopen Hshare]. rewrite user_session_create_run. simpl.
  set (id := default uuid4 (uuid (session c))).
  set (new := fresh (dom (clients (app c)))).
  assert (Hnew : forall id' a', _user_sessions (app c) !! id' = Some a' ->
                                client a' <> new).
  { intros id' a' Hl Heq. apply Hopen in Hl. rewrite Heq in Hl.
    apply (is_fresh (dom (clients (app c)))). fold new.
    apply elem_of_dom. eauto. }
  split.
  - intros id' a'. simpl. rewrite lookup_insert.
    case_decide as Hid.
    + intros [= <-]. simpl. apply lookup_insert_eq.
    + intros Hl. rewrite lookup_insert_ne by (symmetry; eauto).
      eauto.
  - intros id1 id2 a1 a2. simpl. rewrite !lookup_insert.
    repeat case_decide; subst.
    + done.
    + intros [= <-] Hl. simpl. intros Heq. symmetry in Heq.
      by destruct (Hnew _ _ Hl).
    + intros Hl [= <-]. simpl. intros Heq. by destruct (Hnew _ _ Hl).
    + eauto.
Qed.

Lemma session_map_inv_reset id c :
  session_map_inv (app c) ->
  session_map_inv (app (user_session_reset id c).2).
Proof.
  intros [Hopen Hshare].
  destruct (_user_sessions (app c) !! id) as [a|] eqn:Ha.
  - rewrite (langchain_user_session_reset_run c id a Ha). simpl. split.
    + intros id' a'. simpl. rewrite lookup_delete.
      case_decide as Hid; [done|]. intros Hl.
      rewrite lookup_insert_ne; [eauto|].
      intros Heq. apply Hid. eauto.
    + intros id1 id2 a1 a2. simpl. rewrite !lookup_delete.
      repeat case_decide; try done. eauto.
  - unfold user_session_reset, bind, get_user_session. rewrite Ha. done.
Qed.

(** Every operation keeps the invariant, whether it returns or raises. *)
Lemma session_map_inv_run op c :
  session_map_inv (app c) ->
  session_map_inv (app (run ainvoke markdown op c)).
Proof.
  intros Hinv. destruct op; simpl.
  - by apply session_map_inv_create.
  - done.
  - by rewrite user_session_invoke_app.
  - by apply session_map_inv_reset.
  - unfold get_user_session. by destruct (_user_sessions (app c) !! id).
  - done.
  - rewrite index_app. by apply session_map_inv_create.
  - by rewrite chat_handler_app.
  - destruct (reset_app c) as [->| [id ->]]; [done|].
    by apply session_map_inv_reset.
Qed.

Lemma reachable_inv o :
  reachable ainvoke markdown o -> session_map_inv o.
Proof.
  induction 1 as [|o s op _ IH].
  - apply session_map_inv_init.
  - by apply (session_map_inv_run op {| app := o; session := s |}).
Qed.

End SessionMapFacts.

(** C6.  In every state the LangChain orchestrator can reach, each agent in
    the session map has an open HTTP client of its own; every operation,
    returning or raising, leaves a state where this still holds; and
    resetting a session that is in the map succeeds, closes that agent's
    client, removes the entry, and leaves only agents with open clients. *)
Theorem agents_never_outlive_clients
    (ainvoke : LangChainTools.UserAgent -> string -> AgentOutcome)
    (markdown : string -> string) (o : LangChainTools.Orchestrator) :
  SessionMap.reachable ainvoke markdown o ->
  SessionMap.agents_have_open_clients o /\
  SessionMap.clients_not_shared o /\
  (forall op s,
     SessionMap.agents_have_open_clients
       (LangChainTools.app
          (SessionMap.run ainvoke markdown op
             {| LangChainTools.app := o; LangChainTools.session := s |}))) /\
  (forall id a s,
     LangChainTools._user_sessions o !! id = Some a ->
     let r := LangChainTools.user_session_reset id
                {| LangChainTools.app := o; LangChainTools.session := s |} in
     r.1 = Return tt /\
     LangChainTools._user_sessions (LangChainTools.app r.2) !! id = None /\
     LangChainTools.clients (LangChainTools.app r.2)
       !! LangChainTools.client a = Some Closed /\
     SessionMap.agents_have_open_clients (LangChainTools.app r.2)).
Proof.
  intros Hreach.
  pose proof (reachable_inv ainvoke markdown o Hreach) as Hinv.
  split; [apply Hinv|]. split; [apply Hinv|]. split.
  - intros op s.
    apply (session_map_inv_run ainvoke markdown op
             {| LangChainTools.app := o; LangChainTools.session := s |}).
    exact Hinv.
  - intros id a s Ha. cbv zeta.
    pose proof (session_map_inv_reset id
      {| LangChainTools.app := o; LangChainTools.session := s |} Hinv)
      as [Hopen' _].
    rewrite (langchain_user_session_reset_run
               {| LangChainTools.app := o; LangChainTools.session := s |}
               id a Ha) in *.
    simpl in *. repeat split.
    + apply lookup_delete_eq.
    + apply lookup_insert_eq.
    + exact Hopen'.
Qed.

Lemma agents_never_outlive_clients_witness :
  SessionMap.agents_have_open_clients
    (LangChainTools.app
       (SessionMap.run (fun _ _ => Response "ok") id (SessionMap.Index "s1")
          {| LangChainTools.app := LangChainTools.init;
             LangChainTools.session :=
               {| LangChainTools.uuid := None;
                  LangChainTools.history := None |} |})).
Proof.
  refine (proj1
    (agents_never_outlive_clients (fun _ _ => Response "ok") id _ _)).
  apply SessionMap.reachable_step. apply SessionMap.reachable_init.
Defined.

(** ** Repeated index visits (C5) *)

(** In the Vertex AI demo an index visit for a session whose identifier is
    already in [chat_assistants] changes nothing in the process-wide
    state. *)
Lemma vertexai_index_keeps_entry
    (v : VertexAI.Ctx) (id uuid4 : string) (a : VertexAI.ChatAssistant) :
  VertexAI.uuid (VertexAI.session v) = Some id ->
  VertexAI.chat_assistants (VertexAI.app v) !! id = Some a ->
  VertexAI.app (VertexAI.index uuid4 v).2 = VertexAI.app v.
Proof.
  destruct v as [[m cl] [u ms]]. simpl. intros -> Ha.
  unfold VertexAI.index, bind, modify, get, VertexAI.session_uuid.
  simpl. rewrite Ha. by destruct ms.
Qed.

(** C5, on the LangChain demo.  A first index visit gives session ["s1"] an
    agent on client 0; a second visit with the same session puts a new
    agent on client 1 in its place, and client 0 stays open with no agent
    holding it. *)
Theorem langchain_index_replaces_entry :
  let first := (LangChainTools.index "s1"
                  {| LangChainTools.app := LangChainTools.init;
                     LangChainTools.session :=
                       {| LangChainTools.uuid := None;
                          LangChainTools.history := None |} |}).2 in
  let second := (LangChainTools.index "s2" first).2 in
  LangChainTools.uuid (LangChainTools.session first) = Some "s1" /\
  LangChainTools.client <$>
    LangChainTools._user_sessions (LangChainTools.app first) !! "s1" =
    Some 0%nat /\
  LangChainTools.uuid (LangChainTools.session second) = Some "s1" /\
  LangChainTools.client <$>
    LangChainTools._user_sessions (LangChainTools.app second) !! "s1" =
    Some 1%nat /\
  LangChainTools._user_sessions (LangChainTools.app second) !! "s1" <>
    LangChainTools._user_sessions (LangChainTools.app first) !! "s1" /\
  LangChainTools.clients (LangChainTools.app second) !! 0%nat = Some Open.
Proof.
  cbv zeta. repeat split; try reflexivity.
  vm_compute. discriminate.
Qed.

(** ** The REST tools (C7, C8, C10) *)

(** C7.  [filter_none_values] keeps exactly the entries whose value is not
    [None], with their values, and so the parameters that the airport
    search and the flight listing send are exactly their arguments that are
    not [None], under the argument's own key. *)
Ltac split_cases H :=
  repeat match type of H with
         | _ /\ _ => let H1 := fresh in let H2 := fresh in
                      destruct H as [H1 H2]; split_cases H1; split_cases H2
         | _ \/ _ => let H1 := fresh in
                      destruct H as [H1|H1]; split_cases H1
         end.

Ltac pick_disjunct :=
  repeat match goal with
         | |- _ /\ _ => split
         | |- _ \/ _ => first [left; solve [pick_disjunct] | right]
         | _ => done
         end.

Theorem filter_none_values_keeps_non_null :
  (forall (params : gmap string Tools.PyValue) k v,
     Tools.filter_none_values params !! k = Some v <->
     params !! k = Some v /\ v <> Tools.PyNone) /\
  (forall BASE_URL id_token client_headers country city name k v,
     Tools.params (Tools.search_airports_request BASE_URL id_token
                     client_headers country city name) !! k = Some v <->
     v <> Tools.PyNone /\
     ((k = "country" /\ v = country) \/ (k = "city" /\ v = city) \/
      (k = "name" /\ v = name))) /\
  (forall BASE_URL id_token client_headers departure_airport arrival_airport
          date k v,
     Tools.params (Tools.list_flights_request BASE_URL id_token
                     client_headers departure_airport arrival_airport date)
       !! k = Some v <->
     v <> Tools.PyNone /\
     ((k = "departure_airport" /\ v = departure_airport) \/
      (k = "arrival_airport" /\ v = arrival_airport) \/
      (k = "date" /\ v = date))).
Proof.
  split; [|split].
  - intros params k v. unfold Tools.filter_none_values.
    by rewrite map_lookup_filter_Some.
  - intros. unfold Tools.search_airports_request, Tools.filter_none_values.
    simpl. rewrite map_lookup_filter_Some. simpl.
    rewrite !lookup_insert_Some, lookup_empty.
    split; intros H; split_cases H; simplify_eq; pick_disjunct.
  - intros. unfold Tools.list_flights_request, Tools.filter_none_values.
    simpl. rewrite map_lookup_filter_Some. simpl.
    rewrite !lookup_insert_Some, lookup_empty.
    split; intros H; split_cases H; simplify_eq; pick_disjunct.
Qed.

Lemma contains_unfold sub s :
  Tools.contains sub s =
    if String.prefix sub s then true
    else match s with
         | EmptyString => false
         | String _ s' => Tools.contains sub s'
         end.
Proof. by destruct s. Qed.

Lemma prefix_true_iff sub s :
  String.prefix sub s = true <-> exists post, s = sub +:+ post.
Proof.
  revert s. induction sub as [|a sub IH]; intros s; simpl.
  - destruct s; simpl; (split; [intros _; by eexists|done]).
  - destruct s as [|b s]; simpl.
    + split; [done|]. intros [post Hp]. discriminate.
    + destruct (Ascii.ascii_dec a b) as [->|Hne].
      * rewrite IH. split.
        -- intros [post ->]. by exists post.
        -- intros [post [= ->]]. by exists post.
      * split; [done|]. intros [post [= ? ?]]. congruence.
Qed.

(** [contains] decides Python's substring test. *)
Lemma contains_true_iff sub s :
  Tools.contains sub s = true <-> exists pre post, s = pre +:+ sub +:+ post.
Proof.
  split.
  - induction s as [|a s IH]; rewrite contains_unfold;
      destruct (String.prefix sub _) eqn:Hp.
    + intros _. apply prefix_true_iff in Hp as [post ->]. by exists "", post.
    + done.
    + intros _. apply prefix_true_iff in Hp as [post ->]. by exists "", post.
    + intros H. destruct (IH H) as (pre & post & ->).
      by exists (String a pre), post.
  - intros (pre & post & ->). induction pre as [|a pre IH].
    + rewrite contains_unfold.
      replace (String.prefix sub ("" +:+ sub +:+ post)) with true; [done|].
      symmetry. apply prefix_true_iff. by exists post.
    + rewrite contains_unfold. simpl.
      match goal with
      | |- context [if ?b then _ else _] => destruct b
      end; [done|exact IH].
Qed.

(** C8.  [get_headers] sets the ["Authorization"] header to
    ["Bearer "] followed by the identity token when [BASE_URL] does not
    contain ["http://"], and otherwise returns the client's headers as they
    are. *)
Theorem get_headers_bearer_iff
    (BASE_URL id_token : string) (client_headers : gmap string string) :
  let plain_http := exists pre post, BASE_URL = pre +:+ "http://" +:+ post in
  let headers := Tools.get_headers BASE_URL id_token client_headers in
  (plain_http /\ headers = client_headers) \/
  (~ plain_http /\
   headers = <["Authorization" := "Bearer " +:+ id_token]> client_headers /\
   headers !! "Authorization" = Some ("Bearer " +:+ id_token) /\
   forall k, k <> "Authorization" -> headers !! k = client_headers !! k).
Proof.
  cbv zeta. unfold Tools.get_headers.
  destruct (Tools.contains "http://" BASE_URL) eqn:Hc; simpl.
  - left. split; [|done]. by apply contains_true_iff.
  - right. split.
    + intros H. apply contains_true_iff in H. congruence.
    + split; [done|]. split; [apply lookup_insert_eq|].
      intros k Hk. by rewrite lookup_insert_ne.
Qed.

(** *** Shaping the answer for the agent (C10) *)

Lemma has_newline_app s t :
  has_newline (s +:+ t) = has_newline s || has_newline t.
Proof.
  induction s as [|a s IH]; simpl; [done|].
  by destruct (Ascii.eqb a "010"%char).
Qed.

Section ToolAnswers.

Variable BASE_URL id_token : string.
Variable Item : Type.
Variable py_str : Item -> string.
Variable client_get : Tools.Request -> list Item.

Lemma join_two_has_newline x y :
  has_newline (String.concat Tools.newline [py_str x; py_str y]) = true.
Proof.
  simpl. rewrite !has_newline_app. simpl. by rewrite orb_true_r.
Qed.

(** The three-way shape shared by both tools, for any wording whose
    no-result message is a single line. *)
Lemma answer_shape (none_msg pre post : string) (l : list Item) :
  has_newline none_msg = false ->
  let num := 2 in
  let answer :=
    if decide (length l < 1) then none_msg
    else if decide (num < length l) then
      pre +:+ pretty (length l) +:+ post +:+ pretty num +:+
      " results:" +:+ Tools.newline +:+
      String.concat " " (py_str <$> take num l)
    else String.concat Tools.newline (py_str <$> l) in
  (answer = none_msg <->
   l = [] \/ exists x, l = [x] /\ py_str x = none_msg) /\
  (2 < length l ->
   exists x0 x1, l !! 0 = Some x0 /\ l !! 1 = Some x1 /\
     answer = pre +:+ pretty (length l) +:+ post +:+ "2 results:" +:+
              Tools.newline +:+ py_str x0 +:+ " " +:+ py_str x1) /\
  (1 <= length l <= 2 -> answer = String.concat Tools.newline (py_str <$> l)).
Proof.
  intros Hnl. cbv zeta. split; [|split].
  - split.
    + destruct l as [|x0 [|x1 [|x2 l]]]; [by left| | |].
      * simpl. intros H. right. by exists x0.
      * rewrite decide_False by (simpl; lia).
        rewrite decide_False by (simpl; lia).
        intros H. pose proof (join_two_has_newline x0 x1) as Hj.
        simpl in H, Hj. rewrite H in Hj. congruence.
      * rewrite decide_False by (simpl; lia).
        rewrite decide_True by (simpl; lia).
        intros H. apply (f_equal has_newline) in H.
        rewrite !has_newline_app, Hnl in H. simpl in H.
        rewrite !orb_true_r in H. discriminate.
    + intros [->|(x & -> & Hx)]; [done|]. simpl. exact Hx.
  - intros Hlen. destruct l as [|x0 [|x1 [|x2 l]]]; simpl in Hlen; try lia.
    exists x0, x1. split; [done|]. split; [done|].
    rewrite decide_False by (simpl; lia).
    rewrite decide_True by (simpl; lia). reflexivity.
  - intros Hlen. rewrite decide_False by lia.
    by rewrite decide_False by lia.
Qed.

(** C10, as the code has it.  The airport search and the flight listing
    answer with the no-results message exactly when the list that the
    downstream service returned is empty or holds a single element whose
    rendering is that very message; with more than two elements they give
    the total count followed by the first two elements in order, separated
    by a space; with one or two elements they give all of them joined by
    newlines. *)
Theorem tool_answer_shape_exact
    (client_headers : gmap string string)
    (a1 a2 a3 : Tools.PyValue) :
  let airports :=
    client_get (Tools.search_airports_request BASE_URL id_token
                  client_headers a1 a2 a3) in
  let flights :=
    client_get (Tools.list_flights_request BASE_URL id_token
                  client_headers a1 a2 a3) in
  let answer1 := Tools.search_airports BASE_URL id_token Item py_str
                   client_get client_headers a1 a2 a3 in
  let answer2 := Tools.list_flights BASE_URL id_token Item py_str
                   client_get client_headers a1 a2 a3 in
  ((answer1 = "There are no airports matching that query. Let the user know there are no results."
    <-> airports = [] \/
        exists x, airports = [x] /\
          py_str x = "There are no airports matching that query. Let the user know there are no results.") /\
   (2 < length airports ->
    exists x0 x1, airports !! 0 = Some x0 /\ airports !! 1 = Some x1 /\
      answer1 = "There are " +:+ pretty (length airports) +:+
                " airports matching that query. Here are the first " +:+
                "2 results:" +:+ Tools.newline +:+
                py_str x0 +:+ " " +:+ py_str x1) /\
   (1 <= length airports <= 2 ->
    answer1 = String.concat Tools.newline (py_str <$> airports))) /\
  ((answer2 = "There are no flights matching that query. Let the user know there are no results."
    <-> flights = [] \/
        exists x, flights = [x] /\
          py_str x = "There are no flights matching that query. Let the user know there are no results.") /\
   (2 < length flights ->
    exists x0 x1, flights !! 0 = Some x0 /\ flights !! 1 = Some x1 /\
      answer2 = "There are " +:+ pretty (length flights) +:+
                " flights matching that query. Here are the first " +:+
                "2 results:" +:+ Tools.newline +:+
                py_str x0 +:+ " " +:+ py_str x1) /\
   (1 <= length flights <= 2 ->
    answer2 = String.concat Tools.newline (py_str <$> flights))).
Proof.
  cbv zeta. split.
  - apply (answer_shape
      "There are no airports matching that query. Let the user know there are no results."
      "There are "
      " airports matching that query. Here are the first ");
      reflexivity.
  - apply (answer_shape
      "There are no flights matching that query. Let the user know there are no results."
      "There are "
      " flights matching that query. Here are the first ");
      reflexivity.
Qed.

(** When every element is a JSON object, which Python renders with an
    opening brace first, the single-element case cannot arise and the
    no-results message means an empty list. *)
Lemma no_results_answer_for_objects
    (client_headers : gmap string string) (a1 a2 a3 : Tools.PyValue) :
  (forall x, exists s, py_str x = String "{"%char s) ->
  (Tools.search_airports BASE_URL id_token Item py_str client_get
     client_headers a1 a2 a3 =
     "There are no airports matching that query. Let the user know there are no results."
   <-> client_get (Tools.search_airports_request BASE_URL id_token
                     client_headers a1 a2 a3) = []) /\
  (Tools.list_flights BASE_URL id_token Item py_str client_get
     client_headers a1 a2 a3 =
     "There are no flights matching that query. Let the user know there are no results."
   <-> client_get (Tools.list_flights_request BASE_URL id_token
                     client_headers a1 a2 a3) = []).
Proof.
  intros Hdict. split.
  - pose proof (answer_shape
      "There are no airports matching that query. Let the user know there are no results."
      "There are "
      " airports matching that query. Here are the first "
      (client_get (Tools.search_airports_request BASE_URL id_token
                     client_headers a1 a2 a3)) eq_refl) as [Hiff _].
    cbv zeta in Hiff. unfold Tools.search_airports. cbv zeta.
    rewrite Hiff. split; [|by left].
    intros [Hnil|(x & _ & Hx)]; [done|].
    destruct (Hdict x) as [s Hs]. rewrite Hs in Hx. discriminate.
  - pose proof (answer_shape
      "There are no flights matching that query. Let the user know there are no results."
      "There are "
      " flights matching that query. Here are the first "
      (client_get (Tools.list_flights_request BASE_URL id_token
                     client_headers a1 a2 a3)) eq_refl) as [Hiff _].
    cbv zeta in Hiff. unfold Tools.list_flights. cbv zeta.
    rewrite Hiff. split; [|by left].
    intros [Hnil|(x & _ & Hx)]; [done|].
    destruct (Hdict x) as [s Hs]. rewrite Hs in Hx. discriminate.
Qed.

End ToolAnswers.

(** C10 as the spec states it fails on a list that is not empty: a JSON
    string renders as itself, so the list whose only element is the text of
    the no-results message gets that message for an answer. *)
Lemma tool_answer_shape_counterexample :
  let message := "There are no airports matching that query. Let the user know there are no results." in
  let response_json := [message] in
  let answer := Tools.search_airports "http://127.0.0.1:8080" "tok" string id
                  (fun _ => response_json) ∅
                  Tools.PyNone Tools.PyNone Tools.PyNone in
  answer = message /\ response_json <> [] /\
  ~ (answer = message <-> response_json = []).
Proof.
  cbv zeta. split; [reflexivity|]. split; [discriminate|].
  intros [Hto _]. specialize (Hto eq_refl). discriminate Hto.
Qed.

(** ** The similarity query (C4) *)

Section SimilaritySearch.
Import AlloyDB.

Variable vector : Type.
Variable cosine_distance : vector -> vector -> Q.
Variable query_embedding : vector.

Local Abbreviation sim := (similarity vector cosine_distance query_embedding).
Local Abbreviation desc := (by_similarity_desc vector cosine_distance query_embedding).

#[local] Instance desc_total : Total desc.
Proof.
  intros a b. unfold by_similarity_desc.
  destruct (Qlt_le_dec (sim a) (sim b)) as [Hlt|Hle]; [right|left].
  - by apply Qlt_le_weak.
  - done.
Qed.

#[local] Instance desc_trans : Transitive desc.
Proof.
  intros a b c Hab Hbc. unfold by_similarity_desc in *.
  by apply Qle_trans with (sim b).
Qed.

(** C4.  The search raises only for a negative limit.  Otherwise the rows
    selected by [vector_matches] number at most [top_k], each is a row of
    [product_embeddings] whose similarity (one minus the cosine distance to
    the query) is strictly above the threshold, no row above the threshold
    that was left out has a higher similarity than a selected one, rows are
    left out only when the limit is reached, and the products returned are
    exactly those whose identifier is the identifier of a selected row. *)
Theorem similarity_search_top_k
    (db : Database vector) (similarity_theshold : Q) (top_k : Z) :
  match semantic_similiarity_search vector cosine_distance db
          query_embedding similarity_theshold top_k with
  | Raise _ => (top_k < 0)%Z
  | Return results =>
      (0 <= top_k)%Z /\
      let matches := vector_matches vector cosine_distance db
                       query_embedding similarity_theshold (Z.to_nat top_k) in
      length matches <= Z.to_nat top_k /\
      (forall e, e ∈ matches ->
         e ∈ product_embeddings vector db /\
         (similarity_theshold < sim e)%Q) /\
      (exists rest,
         matches ++ rest ≡ₚ
           filter (fun e => (similarity_theshold < sim e)%Q)
                  (product_embeddings vector db) /\
         (forall e e', e ∈ matches -> e' ∈ rest -> (sim e' <= sim e)%Q) /\
         (rest <> [] -> length matches = Z.to_nat top_k)) /\
      (forall r, r ∈ results <->
         exists p e,
           p ∈ products_table vector db /\
           r = {| product_name := products.product_name p;
                  list_price := products.list_price p;
                  description := products.description p |} /\
           e ∈ matches /\
           product_id vector e = products.product_id p)
  end.
Proof.
  unfold semantic_similiarity_search.
  destruct (decide (top_k < 0)%Z) as [Hneg|Hpos]; [done|].
  split; [lia|]. cbv zeta.
  unfold vector_matches.
  set (above := filter (fun e => (similarity_theshold < sim e)%Q)
                  (product_embeddings vector db)).
  set (sorted := merge_sort desc above).
  assert (Hperm : sorted ≡ₚ above) by apply merge_sort_Permutation.
  assert (Hsorted : StronglySorted desc sorted)
    by apply (StronglySorted_merge_sort _).
  split; [|split; [|split]].
  - rewrite length_take. lia.
  - intros e He.
    assert (e ∈ above) as Hin.
    { rewrite <- Hperm. by apply (subseteq_take (Z.to_nat top_k)). }
    by apply list_elem_of_filter in Hin as [? ?].
  - exists (drop (Z.to_nat top_k) sorted). split; [|split].
    + by rewrite take_drop.
    + intros e e' He He'.
      rewrite <- (take_drop (Z.to_nat top_k) sorted) in Hsorted.
      apply (StronglySorted_app_1_elem_of _ _ _ _ _ Hsorted He He').
    + intros Hrest. rewrite length_take.
      destruct (decide (length sorted <= Z.to_nat top_k)) as [Hle|Hgt]; [|lia].
      by rewrite drop_ge in Hrest.
  - intros r. rewrite list_elem_of_fmap. split.
    + intros (p & -> & Hp). apply list_elem_of_filter in Hp as [Hid Hp].
      apply list_elem_of_fmap in Hid as (e & Hid & He).
      exists p, e. by repeat split.
    + intros (p & e & Hp & -> & He & Hid).
      exists p. split; [done|]. apply list_elem_of_filter. split; [|done].
      apply list_elem_of_fmap. by exists e.
Qed.

End SimilaritySearch.

(** A small table: three embedding rows at distances 1/10, 1/2 and 3/10
    from the query, so with similarities 9/10, 1/2 and 7/10.  With
    threshold 2/5 all three qualify and the limit picks the best ones;
    with threshold 3/5 the second row is out whatever the limit. *)
Example similarity_search_sample :
  let db := {| AlloyDB.products_table :=
                 [ {| AlloyDB.products.product_id := "p1";
                      AlloyDB.products.product_name := "kite";
                      AlloyDB.products.description := "a kite";
                      AlloyDB.products.list_price := 5 |};
                   {| AlloyDB.products.product_id := "p2";
                      AlloyDB.products.product_name := "ball";
                      AlloyDB.products.description := "a ball";
                      AlloyDB.products.list_price := 3 |};
                   {| AlloyDB.products.product_id := "p3";
                      AlloyDB.products.product_name := "drum";
                      AlloyDB.products.description := "a drum";
                      AlloyDB.products.list_price := 9 |} ];
               AlloyDB.product_embeddings :=
                 [ {| AlloyDB.product_id := "p1"; AlloyDB.content := "kite";
                      AlloyDB.embedding := (1 # 10)%Q |};
                   {| AlloyDB.product_id := "p2"; AlloyDB.content := "ball";
                      AlloyDB.embedding := (1 # 2)%Q |};
                   {| AlloyDB.product_id := "p3"; AlloyDB.content := "drum";
                      AlloyDB.embedding := (3 # 10)%Q |} ] |} in
  let distance := fun a b : Q => (a - b)%Q in
  (AlloyDB.product_id Q <$>
     AlloyDB.vector_matches Q distance db 0%Q (2 # 5)%Q 2 = ["p1"; "p3"]) /\
  (AlloyDB.product_id Q <$>
     AlloyDB.vector_matches Q distance db 0%Q (2 # 5)%Q 1 = ["p1"]) /\
  AlloyDB.product_name <$>
    match AlloyDB.semantic_similiarity_search Q distance db 0%Q (3 # 5)%Q 5 with
    | Return rows => rows
    | Raise _ => []
    end = ["kite"; "drum"].
Proof. cbv zeta. repeat split; vm_compute; reflexivity. Qed.

(** ** Sample runs *)

Example contains_default_base_url :
  Tools.contains "http://" "http://127.0.0.1:8080" = true /\
  Tools.contains "http://" "https://retrieval-service.a.run.app" = false /\
  Tools.contains "http://" "proxy?to=http://inner" = true.
Proof. repeat split. Qed.

Example get_headers_sample :
  Tools.get_headers "http://127.0.0.1:8080" "tok" ∅ = ∅ /\
  Tools.get_headers "https://retrieval-service.a.run.app" "tok" ∅
    = {[ "Authorization" := "Bearer tok" ]}.
Proof. split; reflexivity. Qed.

Example filter_none_values_sample :
  map_to_list
    (Tools.filter_none_values
       (<["country" := Tools.PyStr "Mexico"]>
          (<["city" := Tools.PyNone]> (<["name" := Tools.PyNone]> ∅))))
  = [("country", Tools.PyStr "Mexico")].
Proof. vm_compute. reflexivity. Qed.

Example search_airports_sample :
  let py_str := fun s : string => "{" +:+ s +:+ "}" in
  let tool := fun rows =>
    Tools.search_airports "http://127.0.0.1:8080" "tok" string py_str
      (fun _ => rows) ∅ Tools.PyNone Tools.PyNone (Tools.PyStr "Goroka") in
  tool [] = "There are no airports matching that query. Let the user know there are no results." /\
  tool ["'id': 1"] = "{'id': 1}" /\
  tool ["'id': 1"; "'id': 2"] = "{'id': 1}" +:+ Tools.newline +:+ "{'id': 2}" /\
  tool ["'id': 1"; "'id': 2"; "'id': 3"] =
    "There are 3 airports matching that query. Here are the first 2 results:"
    +:+ Tools.newline +:+ "{'id': 1} {'id': 2}".
Proof. cbv zeta. repeat split; vm_compute; reflexivity. Qed.

Example parse_messages_sample :
  LangChainTools.parse_messages
    [LangChainTools.BASE_HISTORY;
     {| LangChainTools.type := "human"; LangChainTools.content := "hi" |};
     {| LangChainTools.type := "system"; LangChainTools.content := "x" |}]
  = [AIMessage "I am an SFO Airport Assistant, ready to assist you.";
     HumanMessage "hi"].
Proof. reflexivity. Qed.

Example chat_without_index_sample :
  (LangChainTools.chat_handler (fun _ _ => Response "ok") id "hello"
     {| LangChainTools.app := LangChainTools.init;
        LangChainTools.session :=
          {| LangChainTools.uuid := None;
             LangChainTools.history := None |} |}).1
  = Raise (HTTPException 400%Z
             "Error: Invoke index handler before start chatting").
Proof. reflexivity. Qed.

Example chat_success_sample :
  let r := LangChainTools.chat_handler (fun _ _ => Response "Gate A6") id
             "Where is my gate?" langchain_one_session in
  r.1 = Return "Gate A6" /\
  LangChainTools.history (LangChainTools.session r.2) =
    Some [LangChainTools.BASE_HISTORY;
          {| LangChainTools.type := "human";
             LangChainTools.content := "Where is my gate?" |};
          {| LangChainTools.type := "ai";
             LangChainTools.content := "Gate A6" |}].
Proof. split; reflexivity. Qed.

(** * Further properties *)

(** ** Session life cycle of the LangChain demo *)

Section LangChainLifeCycle.
Import LangChainTools.

Variable ainvoke : UserAgent -> string -> AgentOutcome.
Variable markdown : string -> string.

(** The index handler always returns, and this is what it leaves. *)
Lemma index_run (uuid4 : string) (c : Ctx) :
  let id := default uuid4 (uuid (session c)) in
  let h := default [BASE_HISTORY] (history (session c)) in
  let new := fresh (dom (clients (app c))) in
  index uuid4 c =
    (Return h,
     {| app := {| _user_sessions :=
                    <[id := initialize_agent new (parse_messages h)]>
                      (_user_sessions (app c));
                  connector := true;
                  clients := <[new := Open]> (clients (app c)) |};
        session := {| uuid := Some id; history := Some h |} |}).
Proof.
  cbv zeta. unfold index, bind.
  generalize (user_session_create_run uuid4 c). cbv zeta. by intros ->.
Qed.

(** X1.  The index handler never fails.  It keeps the identifier and the
    history a session already has, fills in a new identifier and the
    greeting otherwise, returns the history, and registers under the
    session's identifier an agent whose memory is the parsed history and
    whose client is new and open. *)
Theorem index_sets_up_session (uuid4 : string) (c : Ctx) :
  let r := index uuid4 c in
  let id := default uuid4 (uuid (session c)) in
  let h := default [BASE_HISTORY] (history (session c)) in
  r.1 = Return h /\
  session r.2 = {| uuid := Some id; history := Some h |} /\
  exists a,
    _user_sessions (app r.2) !! id = Some a /\
    agent a = parse_messages h /\
    clients (app c) !! client a = None /\
    clients (app r.2) !! client a = Some Open.
Proof.
  cbv zeta. generalize (index_run uuid4 c). cbv zeta. intros ->.
  simpl. split; [done|]. split; [done|].
  eexists. split; [apply lookup_insert_eq|]. simpl.
  split; [done|]. split; [|apply lookup_insert_eq].
  apply not_elem_of_dom. apply is_fresh.
Qed.

(** X2.  Once the index handler has run, a chat request with a non-empty
    prompt meets neither guard nor a missing key: the agent that the index
    handler registered for the session is called on the prompt, and the
    request returns the rendering of that agent's output, fails with the
    status-500 exception made from that agent's error, or lets through the
    exception that [except Exception] does not catch. *)
Theorem chat_after_index (uuid4 prompt : string) (c : Ctx) :
  prompt <> "" ->
  let c1 := (index uuid4 c).2 in
  exists id a,
    uuid (session c1) = Some id /\
    _user_sessions (app c1) !! id = Some a /\
    (chat_handler ainvoke markdown prompt c1).1 =
      match ainvoke a prompt with
      | Response output => Return (markdown output)
      | Raises err =>
          Raise (HTTPException 500%Z ("Error invoking agent: " +:+ err))
      | RaisesBase err => Raise (BaseException err)
      end.
Proof.
  intros Hp. generalize (index_run uuid4 c). cbv zeta. intros ->.
  cbn [snd].
  set (a := initialize_agent (fresh (dom (clients (app c))))
              (parse_messages (default [BASE_HISTORY] (history (session c))))).
  exists (default uuid4 (uuid (session c))), a.
  split; [done|]. split; [apply lookup_insert_eq|].
  rewrite (langchain_chat_handler_run ainvoke markdown _ prompt
             (default uuid4 (uuid (session c)))
             (default [BASE_HISTORY] (history (session c))) a Hp);
    [|done|done|apply lookup_insert_eq].
  by destruct (ainvoke a prompt).
Qed.

(** X3.  A chat request whose agent answers returns the rendered output
    and appends exactly two turns to the session's history, the prompt as a
    human turn and the output as an assistant turn.  It adds no entry to
    the map and removes none, every session keeps the client of its agent,
    and no client is opened or closed. *)
Theorem chat_success_appends_two_turns
    (c : Ctx) (prompt id output : string) (h : list HistoryEntry)
    (a : UserAgent) :
  prompt <> "" ->
  uuid (session c) = Some id ->
  history (session c) = Some h ->
  _user_sessions (app c) !! id = Some a ->
  ainvoke a prompt = Response output ->
  let r := chat_handler ainvoke markdown prompt c in
  r.1 = Return (markdown output) /\
  session r.2 =
    {| uuid := Some id;
       history :=
         Some (h ++ [{| type := "human"; content := prompt |};
                     {| type := "ai"; content := output |}]) |} /\
  clients (app r.2) = clients (app c) /\
  forall id', client <$> _user_sessions (app r.2) !! id' =
              client <$> _user_sessions (app c) !! id'.
Proof.
  intros Hp Hu Hh Ha Hout. cbv zeta.
  rewrite (langchain_chat_handler_run ainvoke markdown c prompt id h a)
    by done.
  rewrite Hout. simpl. by rewrite <- app_assoc.
Qed.

(** X4.  A chat request from a session whose identifier has no agent in
    the map (the process-wide map does not survive a restart, the session
    cookie does) fails with [KeyError], not with an HTTP error, and the
    prompt has already been appended to the history. *)
Theorem chat_without_agent_raises_key_error
    (c : Ctx) (prompt id : string) (h : list HistoryEntry) :
  prompt <> "" ->
  uuid (session c) = Some id ->
  history (session c) = Some h ->
  _user_sessions (app c) !! id = None ->
  chat_handler ainvoke markdown prompt c =
    (Raise (KeyError id),
     {| app := app c;
        session :=
          {| uuid := Some id;
             history :=
               Some (h ++ [{| type := "human"; content := prompt |}]) |} |}).
Proof.
  intros Hp Hu Hh Ha.
  unfold chat_handler. rewrite decide_False by done.
  unfold bind, get. rewrite Hu.
  unfold session_history_append, bind, session_history, modify.
  rewrite Hh. simpl. unfold session_uuid. simpl. rewrite Hu. simpl.
  unfold user_session_invoke, bind, get_user_session. simpl. rewrite Ha.
  unfold set_session. simpl. by rewrite Hu.
Qed.

End LangChainLifeCycle.

Lemma chat_after_index_witness :
  let c1 := (LangChainTools.index "s1"
               {| LangChainTools.app := LangChainTools.init;
                  LangChainTools.session :=
                    {| LangChainTools.uuid := None;
                       LangChainTools.history := None |} |}).2 in
  exists id a,
    LangChainTools.uuid (LangChainTools.session c1) = Some id /\
    LangChainTools._user_sessions (LangChainTools.app c1) !! id = Some a /\
    (LangChainTools.chat_handler (fun _ _ => Response "Gate A6")
       (fun text => "<p>" +:+ text +:+ "</p>") "Where is my gate?" c1).1 =
      Return "<p>Gate A6</p>".
Proof.
  apply (chat_after_index (fun _ _ => Response "Gate A6")
           (fun text => "<p>" +:+ text +:+ "</p>") "s1" "Where is my gate?").
  discriminate.
Defined.

Lemma chat_success_appends_two_turns_witness :
  LangChainTools.session
    (LangChainTools.chat_handler (fun _ _ => Response "Gate A6") id
       "Where is my gate?" langchain_one_session).2 =
    {| LangChainTools.uuid := Some "s1";
       LangChainTools.history :=
         Some ([LangChainTools.BASE_HISTORY] ++
               [{| LangChainTools.type := "human";
                   LangChainTools.content := "Where is my gate?" |};
                {| LangChainTools.type := "ai";
                   LangChainTools.content := "Gate A6" |}]) |}.
Proof.
  refine (proj1 (proj2
    (chat_success_appends_two_turns (fun _ _ => Response "Gate A6") id
       langchain_one_session "Where is my gate?" "s1" "Gate A6"
       [LangChainTools.BASE_HISTORY]
       {| LangChainTools.client := 0%nat; LangChainTools.agent := [] |}
       _ _ _ _ _))).
  - discriminate.
  - reflexivity.
  - reflexivity.
  - reflexivity.
  - reflexivity.
Defined.

Lemma chat_without_agent_raises_key_error_witness :
  (LangChainTools.chat_handler (fun _ _ => Response "Gate A6") id
     "Where is my gate?"
     {| LangChainTools.app := LangChainTools.init;
        LangChainTools.session :=
          {| LangChainTools.uuid := Some "s1";
             LangChainTools.history :=
               Some [LangChainTools.BASE_HISTORY] |} |}).1 =
    Raise (KeyError "s1").
Proof.
  refine (f_equal fst
    (chat_without_agent_raises_key_error (fun _ _ => Response "Gate A6") id
       {| LangChainTools.app := LangChainTools.init;
          LangChainTools.session :=
            {| LangChainTools.uuid := Some "s1";
               LangChainTools.history :=
                 Some [LangChainTools.BASE_HISTORY] |} |}
       "Where is my gate?" "s1" [LangChainTools.BASE_HISTORY] _ _ _ _)).
  - discriminate.
  - reflexivity.
  - reflexivity.
  - reflexivity.
Defined.

Section LangChainSessionMap.
Import LangChainTools SessionMap.

Variable ainvoke : UserAgent -> string -> AgentOutcome.
Variable markdown : string -> string.

(** The three ways through the [/reset] handler. *)
Lemma reset_cases (c : Ctx) :
  match uuid (session c) with
  | None => reset c = (Raise (HTTPException 400%Z "No session to reset."), c)
  | Some id =>
      match _user_sessions (app c) !! id with
      | None =>
          reset c = (Raise (HTTPException 500%Z "Current agent not found"), c)
      | Some a =>
          reset c =
            (Return tt,
             {| app := {| _user_sessions := delete id (_user_sessions (app c));
                          connector := connector (app c);
                          clients := <[client a := Closed]> (clients (app c)) |};
                session := {| uuid := None; history := None |} |})
      end
  end.
Proof.
  destruct c as [o s]. unfold reset, bind, get, user_session_exist. simpl.
  destruct (uuid s) as [id|]; [|done].
  destruct (_user_sessions o !! id) as [a|] eqn:Ha.
  - rewrite bool_decide_eq_true_2 by eauto. simpl.
    rewrite (langchain_user_session_reset_run {| app := o; session := s |}
               id a Ha). done.
  - rewrite bool_decide_eq_false_2; [done|].
    simpl. rewrite Ha. by intros [? ?].
Qed.


(** X5.  The [/reset] handler returns exactly when the session carries an
    identifier that has an agent in the map.  In every other case it
    raises, with status 400 when the session has no identifier and status
    500 when the identifier has no agent, and it leaves the map, the
    clients and the session itself as they were. *)
Theorem reset_outcome (c : Ctx) :
  ((reset c).1 = Return tt <->
   exists id, uuid (session c) = Some id /\
              is_Some (_user_sessions (app c) !! id)) /\
  ((reset c).1 = Return tt \/
   (reset c).2 = c /\
   ((uuid (session c) = None /\
     (reset c).1 = Raise (HTTPException 400%Z "No session to reset.")) \/
    (uuid (session c) <> None /\
     (reset c).1 = Raise (HTTPException 500%Z "Current agent not found")))).
Proof.
  pose proof (reset_cases c) as Hc.
  destruct (uuid (session c)) as [id|] eqn:Hu;
    [destruct (_user_sessions (app c) !! id) as [a|] eqn:Ha|];
    rewrite Hc; simpl.
  - split; [|by left]. split; [|done]. intros _. exists id. by rewrite Ha.
  - split.
    + split; [done|]. intros (id' & [= <-] & [a Ha']). congruence.
    + right. split; [done|]. right. done.
  - split.
    + split; [done|]. by intros (id' & ? & _).
    + right. split; [done|]. left. done.
Qed.

(** X6.  After a reset that went through, the session is empty: the next
    chat request, whatever its non-empty prompt, is refused with the
    index-first message, and a second reset with the no-session message. *)
Theorem requests_after_reset (c : Ctx) (prompt : string) :
  (reset c).1 = Return tt ->
  prompt <> "" ->
  session (reset c).2 = {| uuid := None; history := None |} /\
  (chat_handler ainvoke markdown prompt (reset c).2).1 =
    Raise (HTTPException 400%Z
             "Error: Invoke index handler before start chatting") /\
  (reset (reset c).2).1 =
    Raise (HTTPException 400%Z "No session to reset.").
Proof.
  intros Hret Hp. pose proof (reset_cases c) as Hc.
  destruct (uuid (session c)) as [id|];
    [destruct (_user_sessions (app c) !! id) as [a|]|];
    rewrite Hc in Hret |- *; try discriminate.
  simpl. split; [done|]. split.
  - unfold chat_handler. by rewrite decide_False.
  - reflexivity.
Qed.

(** X7.  Resetting one session leaves every other entry of the map, every
    client but that agent's, the connector and the request's session as
    they were. *)
Theorem user_session_reset_frame (c : Ctx) (id : string) (a : UserAgent) :
  _user_sessions (app c) !! id = Some a ->
  let c' := (user_session_reset id c).2 in
  (forall id', id' <> id ->
     _user_sessions (app c') !! id' = _user_sessions (app c) !! id') /\
  (forall n, n <> client a ->
     clients (app c') !! n = clients (app c) !! n) /\
  connector (app c') = connector (app c) /\
  session c' = session c.
Proof.
  intros Ha. cbv zeta.
  rewrite (langchain_user_session_reset_run c id a Ha). simpl.
  split; [|split; [|done]].
  - intros id' Hne. by rewrite lookup_delete_ne.
  - intros n Hne. by rewrite lookup_insert_ne.
Qed.

Lemma user_session_create_keeps_clients (uuid4 : string) (c : Ctx) (n : nat) :
  is_Some (clients (app c) !! n) ->
  clients (app (user_session_create uuid4 c).2) !! n = clients (app c) !! n.
Proof.
  intros Hn. generalize (user_session_create_run uuid4 c). cbv zeta.
  intros ->. simpl. rewrite lookup_insert_ne; [done|].
  intros <-. apply (is_fresh (dom (clients (app c)))). by apply elem_of_dom.
Qed.

(** X8.  Creating a session's agent writes one entry of the map and adds
    one client: every other entry and every client that existed keep
    their value, and the client store grows by one even when the session
    already had an agent, whose client is then left open. *)
Theorem user_session_create_frame (uuid4 : string) (c : Ctx) :
  let c' := (user_session_create uuid4 c).2 in
  let id := default uuid4 (uuid (session c)) in
  (forall id', id' <> id ->
     _user_sessions (app c') !! id' = _user_sessions (app c) !! id') /\
  (forall n, is_Some (clients (app c) !! n) ->
     clients (app c') !! n = clients (app c) !! n) /\
  size (clients (app c')) = S (size (clients (app c))).
Proof.
  cbv zeta. split; [|split].
  - generalize (user_session_create_run uuid4 c). cbv zeta.
    intros ->. simpl. intros id' Hne. by rewrite lookup_insert_ne.
  - intros n Hn. by apply user_session_create_keeps_clients.
  - generalize (user_session_create_run uuid4 c). cbv zeta.
    intros ->. simpl. apply map_size_insert_None.
    apply not_elem_of_dom. apply is_fresh.
Qed.

(** X9.  No operation drops a client from the store or reopens one: a
    client keeps its state or becomes closed. *)
Theorem clients_only_close
    (op : operation) (c : Ctx) (n : nat) (st : ClientState) :
  clients (app c) !! n = Some st ->
  let c' := run ainvoke markdown op c in
  clients (app c') !! n = Some st \/ clients (app c') !! n = Some Closed.
Proof.
  intros Hn. cbv zeta.
  assert (Hcreate : forall uuid4,
            clients (app (user_session_create uuid4 c).2) !! n = Some st).
  { intros uuid4. rewrite user_session_create_keeps_clients by eauto. done. }
  assert (Hreset : forall id,
            clients (app (user_session_reset id c).2) !! n = Some st \/
            clients (app (user_session_reset id c).2) !! n = Some Closed).
  { intros id. destruct (_user_sessions (app c) !! id) as [a|] eqn:Ha.
    - rewrite (langchain_user_session_reset_run c id a Ha). simpl.
      destruct (decide (n = client a)) as [->|Hne].
      + right. apply lookup_insert_eq.
      + left. by rewrite lookup_insert_ne.
    - left. unfold user_session_reset, bind, get_user_session.
      by rewrite Ha. }
  destruct op; simpl.
  - left. apply Hcreate.
  - by left.
  - left. by rewrite user_session_invoke_app.
  - apply Hreset.
  - left. unfold get_user_session. by destruct (_user_sessions (app c) !! id).
  - by left.
  - left. rewrite index_app. apply Hcreate.
  - left. by rewrite chat_handler_app.
  - destruct (reset_app c) as [->|[id ->]]; [by left|apply Hreset].
Qed.

(** X10.  [user_session_exist] follows the map through creation and reset:
    it answers true for a session right after its agent was created, false
    after a reset of that session whether the reset returned or raised, and
    true exactly when [get_user_session] returns an agent. *)
Theorem user_session_exist_tracks_map (uuid4 id : string) (c : Ctx) :
  (user_session_exist (default uuid4 (uuid (session c)))
     (user_session_create uuid4 c).2).1 = Return true /\
  (user_session_exist id (user_session_reset id c).2).1 = Return false /\
  ((user_session_exist id c).1 = Return true <->
   exists a, (get_user_session id c).1 = Return a).
Proof.
  split; [|split].
  - generalize (user_session_create_run uuid4 c). cbv zeta. intros ->.
    unfold user_session_exist. simpl. rewrite lookup_insert_eq.
    by rewrite bool_decide_eq_true_2 by eauto.
  - unfold user_session_exist. simpl.
    destruct (_user_sessions (app c) !! id) as [a|] eqn:Ha.
    + rewrite (langchain_user_session_reset_run c id a Ha). simpl.
      rewrite lookup_delete_eq. rewrite bool_decide_eq_false_2; [done|].
      by intros [? ?].
    + unfold user_session_reset, bind, get_user_session. rewrite Ha. simpl.
      rewrite Ha. rewrite bool_decide_eq_false_2; [done|]. by intros [? ?].
  - unfold user_session_exist, get_user_session. simpl.
    destruct (_user_sessions (app c) !! id) as [a|].
    + rewrite bool_decide_eq_true_2 by eauto. split; eauto.
    + rewrite bool_decide_eq_false_2 by (by intros [? ?]).
      split; [done|]. by intros [? ?].
Qed.

End LangChainSessionMap.

Lemma requests_after_reset_witness :
  (LangChainTools.reset (LangChainTools.reset langchain_one_session).2).1 =
    Raise (HTTPException 400%Z "No session to reset.").
Proof.
  refine (proj2 (proj2
    (requests_after_reset (fun _ _ => Response "ok") id
       langchain_one_session "hello" _ _))).
  - reflexivity.
  - discriminate.
Defined.

Lemma user_session_reset_frame_witness :
  LangChainTools.session
    (LangChainTools.user_session_reset "s1" langchain_one_session).2 =
    LangChainTools.session langchain_one_session.
Proof.
  refine (proj2 (proj2 (proj2
    (user_session_reset_frame langchain_one_session "s1"
       {| LangChainTools.client := 0%nat; LangChainTools.agent := [] |} _)))).
  reflexivity.
Defined.

Lemma clients_only_close_witness :
  let c' := SessionMap.run (fun _ _ => Response "ok") id
              (SessionMap.UserSessionReset "s1") langchain_one_session in
  LangChainTools.clients (LangChainTools.app c') !! 0%nat = Some Open \/
  LangChainTools.clients (LangChainTools.app c') !! 0%nat = Some Closed.
Proof.
  apply (clients_only_close (fun _ _ => Response "ok") id
           (SessionMap.UserSessionReset "s1") langchain_one_session 0%nat Open).
  reflexivity.
Defined.

(** ** Histories and agent memory *)

Lemma parse_messages_app (h1 h2 : list LangChainTools.HistoryEntry) :
  LangChainTools.parse_messages (h1 ++ h2) =
    LangChainTools.parse_messages h1 ++ LangChainTools.parse_messages h2.
Proof. unfold LangChainTools.parse_messages. apply flat_map_app. Qed.

(** X11.  [parse_messages] works entry by entry: it distributes over
    concatenation, and it yields one message for each entry of type
    ["human"] or ["ai"] and none for any other entry, so it never yields
    more messages than there are entries. *)
Theorem parse_messages_entrywise (h1 h2 : list LangChainTools.HistoryEntry) :
  LangChainTools.parse_messages (h1 ++ h2) =
    LangChainTools.parse_messages h1 ++ LangChainTools.parse_messages h2 /\
  length (LangChainTools.parse_messages h1) =
    length (filter (fun e => LangChainTools.type e = "human" \/
                             LangChainTools.type e = "ai") h1) /\
  length (LangChainTools.parse_messages h1) <= length h1.
Proof.
  assert (Hlen : forall h,
    length (LangChainTools.parse_messages h) =
    length (filter (fun e => LangChainTools.type e = "human" \/
                             LangChainTools.type e = "ai") h)).
  { induction h as [|e h IH]; [done|].
    unfold LangChainTools.parse_messages in *. simpl.
    rewrite !length_app, IH. rewrite filter_cons.
    destruct (decide (LangChainTools.type e = "human")) as [Hh|Hh];
      destruct (decide (LangChainTools.type e = "ai")) as [Ha|Ha]; simpl.
    - rewrite Hh in Ha. discriminate.
    - by rewrite decide_True by eauto.
    - by rewrite decide_True by eauto.
    - by rewrite decide_False by (intros [?|?]; done). }
  split; [|split].
  - apply parse_messages_app.
  - apply Hlen.
  - rewrite Hlen. apply length_filter.
Qed.

(** X12.  The conversation outlives the agent: when a chat request has
    been answered and the index handler runs again, the agent it puts in
    the map for the session remembers the earlier messages followed by the
    new prompt and the new output. *)
Theorem index_after_chat_rebuilds_memory
    (ainvoke : LangChainTools.UserAgent -> string -> AgentOutcome)
    (markdown : string -> string)
    (c : LangChainTools.Ctx) (prompt id output uuid4 : string)
    (h : list LangChainTools.HistoryEntry) (a : LangChainTools.UserAgent) :
  prompt <> "" ->
  LangChainTools.uuid (LangChainTools.session c) = Some id ->
  LangChainTools.history (LangChainTools.session c) = Some h ->
  LangChainTools._user_sessions (LangChainTools.app c) !! id = Some a ->
  ainvoke a prompt = Response output ->
  let c1 := (LangChainTools.chat_handler ainvoke markdown prompt c).2 in
  let c2 := (LangChainTools.index uuid4 c1).2 in
  LangChainTools.agent <$>
    LangChainTools._user_sessions (LangChainTools.app c2) !! id =
    Some (LangChainTools.parse_messages h ++
          [HumanMessage prompt; AIMessage output]).
Proof.
  intros Hp Hu Hh Ha Hout. cbv zeta.
  rewrite (langchain_chat_handler_run ainvoke markdown c prompt id h a)
    by done.
  rewrite Hout. simpl. rewrite <- app_assoc. simpl. rewrite index_app.
  generalize (user_session_create_run uuid4
    {| LangChainTools.app := LangChainTools.app c;
       LangChainTools.session :=
         {| LangChainTools.uuid := Some id;
            LangChainTools.history :=
              Some (h ++ [{| LangChainTools.type := "human";
                             LangChainTools.content := prompt |};
                          {| LangChainTools.type := "ai";
                             LangChainTools.content := output |}]) |} |}).
  cbv zeta. intros ->. simpl. rewrite lookup_insert_eq. simpl.
  f_equal. by rewrite parse_messages_app.
Qed.

Lemma index_after_chat_rebuilds_memory_witness :
  LangChainTools.agent <$>
    LangChainTools._user_sessions
      (LangChainTools.app
         (LangChainTools.index "s2"
            (LangChainTools.chat_handler (fun _ _ => Response "Gate A6") id
               "Where is my gate?" langchain_one_session).2).2) !! "s1" =
    Some (LangChainTools.parse_messages [LangChainTools.BASE_HISTORY] ++
          [HumanMessage "Where is my gate?"; AIMessage "Gate A6"]).
Proof.
  apply (index_after_chat_rebuilds_memory (fun _ _ => Response "Gate A6") id
           langchain_one_session "Where is my gate?" "s1" "Gate A6" "s2"
           [LangChainTools.BASE_HISTORY]
           {| LangChainTools.client := 0%nat; LangChainTools.agent := [] |}).
  - discriminate.
  - reflexivity.
  - reflexivity.
  - reflexivity.
  - reflexivity.
Defined.

(** ** Session life cycle of the Vertex AI demo *)

Section VertexAILifeCycle.
Import VertexAI.

Variable invoke : ChatAssistant -> string -> AgentOutcome.
Variable markdown : string -> string.

(** X13.  An index visit by a session that already has its identifier,
    its messages and an assistant in the map returns the messages and
    changes nothing, in the session or in the process. *)
Theorem vertexai_index_revisit
    (v : Ctx) (id uuid4 : string) (m : list ChatMessage) (a : ChatAssistant) :
  uuid (session v) = Some id ->
  messages (session v) = Some m ->
  chat_assistants (app v) !! id = Some a ->
  index uuid4 v = (Return m, v).
Proof.
  destruct v as [[cs cl] [u ms]]. simpl. intros -> -> Ha.
  unfold index, bind, modify, get, session_uuid. simpl. by rewrite Ha.
Qed.

(** X14.  A chat request whose assistant answers returns the rendered
    output and appends the user turn and the assistant turn, in that
    order, to the session's messages; nothing else changes. *)
Theorem vertexai_chat_success_appends_two_turns
    (v : Ctx) (prompt id output : string) (m : list ChatMessage)
    (a : ChatAssistant) :
  prompt <> "" ->
  uuid (session v) = Some id ->
  messages (session v) = Some m ->
  chat_assistants (app v) !! id = Some a ->
  invoke a prompt = Response output ->
  chat_handler invoke markdown prompt v =
    (Return (markdown output),
     {| app := app v;
        session :=
          {| uuid := Some id;
             messages :=
               Some (m ++ [{| role := "user"; content := prompt |};
                           {| role := "assistant"; content := output |}]) |} |}).
Proof.
  intros Hp Hu Hm Ha Hout.
  rewrite (vertexai_chat_handler_run invoke markdown v prompt id m a) by done.
  rewrite Hout. by rewrite <- app_assoc.
Qed.

(** X15.  A chat request from a session whose identifier is not in
    [chat_assistants] fails with [KeyError] before the [try] block, so no
    HTTP error is made of it, and the user turn is already appended. *)
Theorem vertexai_chat_without_assistant_raises_key_error
    (v : Ctx) (prompt id : string) (m : list ChatMessage) :
  prompt <> "" ->
  uuid (session v) = Some id ->
  messages (session v) = Some m ->
  chat_assistants (app v) !! id = None ->
  chat_handler invoke markdown prompt v =
    (Raise (KeyError id),
     {| app := app v;
        session :=
          {| uuid := Some id;
             messages :=
               Some (m ++ [{| role := "user"; content := prompt |}]) |} |}).
Proof.
  destruct v as [[cs cl] [u ms]]. simpl. intros Hp -> -> Ha.
  unfold chat_handler. rewrite decide_False by done.
  unfold bind, get, session_messages_extend, bind, session_messages, modify,
    session_uuid, chat_assistants_get. simpl. by rewrite Ha.
Qed.

(** X16.  The [/reset] handler returns exactly when the session carries an
    identifier that is in [chat_assistants].  A session without identifier
    makes it fail with [KeyError], not with an HTTP error; an identifier
    that is not in the map makes it fail with status 500; in both cases
    nothing is changed. *)
Theorem vertexai_reset_outcome (v : Ctx) :
  ((reset v).1 = Return tt <->
   exists id, uuid (session v) = Some id /\
              is_Some (chat_assistants (app v) !! id)) /\
  ((reset v).1 = Return tt \/
   (reset v).2 = v /\
   ((uuid (session v) = None /\ (reset v).1 = Raise (KeyError "uuid")) \/
    (uuid (session v) <> None /\
     (reset v).1 = Raise (HTTPException 500%Z "Current agent not found")))).
Proof.
  destruct v as [[cs cl] [u ms]].
  unfold reset, bind, session_uuid, get. simpl.
  destruct u as [id|]; simpl.
  - destruct (cs !! id) as [a|] eqn:Ha; simpl.
    + split; [|by left]. split; [|done]. intros _. exists id. by rewrite Ha.
    + split.
      * split; [done|]. intros (id' & [= <-] & [a Ha']). congruence.
      * right. split; [done|]. by right.
  - split.
    + split; [done|]. by intros (id' & ? & _).
    + right. split; [done|]. by left.
Qed.

End VertexAILifeCycle.

Lemma vertexai_index_revisit_witness :
  VertexAI.index "s2" vertexai_one_session =
    (Return VertexAI.BASE_HISTORY, vertexai_one_session).
Proof.
  apply (vertexai_index_revisit vertexai_one_session "s1" "s2"
           VertexAI.BASE_HISTORY {| VertexAI.client := 0%nat |});
    reflexivity.
Defined.

Lemma vertexai_chat_success_appends_two_turns_witness :
  (VertexAI.chat_handler (fun _ _ => Response "Gate A6") id
     "Where is my gate?" vertexai_one_session).1 = Return "Gate A6".
Proof.
  refine (f_equal fst
    (vertexai_chat_success_appends_two_turns (fun _ _ => Response "Gate A6")
       id vertexai_one_session "Where is my gate?" "s1" "Gate A6"
       VertexAI.BASE_HISTORY {| VertexAI.client := 0%nat |} _ _ _ _ _)).
  - discriminate.
  - reflexivity.
  - reflexivity.
  - reflexivity.
  - reflexivity.
Defined.

Lemma vertexai_chat_without_assistant_raises_key_error_witness :
  (VertexAI.chat_handler (fun _ _ => Response "Gate A6") id
     "Where is my gate?"
     {| VertexAI.app := {| VertexAI.chat_assistants := ∅;
                           VertexAI.clients := ∅ |};
        VertexAI.session :=
          {| VertexAI.uuid := Some "s1";
             VertexAI.messages := Some VertexAI.BASE_HISTORY |} |}).1 =
    Raise (KeyError "s1").
Proof.
  refine (f_equal fst
    (vertexai_chat_without_assistant_raises_key_error
       (fun _ _ => Response "Gate A6") id
       {| VertexAI.app := {| VertexAI.chat_assistants := ∅;
                             VertexAI.clients := ∅ |};
          VertexAI.session :=
            {| VertexAI.uuid := Some "s1";
               VertexAI.messages := Some VertexAI.BASE_HISTORY |} |}
       "Where is my gate?" "s1" VertexAI.BASE_HISTORY _ _ _ _)).
  - discriminate.
  - reflexivity.
  - reflexivity.
  - reflexivity.
Defined.

(** ** More on the REST tools *)

(** X17.  [filter_none_values] gives a sub-dictionary of its argument, it
    changes nothing when applied a second time, and it gives back its
    argument unchanged exactly when no value in it is [None]. *)
Theorem filter_none_values_idempotent (params : gmap string Tools.PyValue) :
  Tools.filter_none_values params ⊆ params /\
  Tools.filter_none_values (Tools.filter_none_values params) =
    Tools.filter_none_values params /\
  (Tools.filter_none_values params = params <->
   forall k, params !! k <> Some Tools.PyNone).
Proof.
  unfold Tools.filter_none_values. split; [|split].
  - apply map_filter_subseteq.
  - apply map_filter_id. intros k v Hkv.
    by apply map_lookup_filter_Some in Hkv as [_ ?].
  - split.
    + intros Heq k Hk. rewrite <- Heq in Hk.
      apply map_lookup_filter_Some in Hk as [_ Hk]. by apply Hk.
    + intros Hnone. apply map_filter_id. intros k v Hkv. simpl.
      intros ->. by apply (Hnone k).
Qed.

(** X18.  [get_headers] works on the client's own header dictionary, so a
    later call starts from what the earlier one left.  A second call with
    a new token leaves exactly what a single call with that token would
    have left: the newest token replaces the old one, and calling twice
    with one token is calling once. *)
Theorem get_headers_latest_token_wins
    (BASE_URL token1 token2 : string) (client_headers : gmap string string) :
  Tools.get_headers BASE_URL token2
    (Tools.get_headers BASE_URL token1 client_headers) =
    Tools.get_headers BASE_URL token2 client_headers /\
  Tools.get_headers BASE_URL token1
    (Tools.get_headers BASE_URL token1 client_headers) =
    Tools.get_headers BASE_URL token1 client_headers.
Proof.
  unfold Tools.get_headers.
  destruct (Tools.contains "http://" BASE_URL); simpl; [done|].
  by rewrite !insert_insert_eq.
Qed.

(** X19.  What reaches the service as query parameters.  The airport
    search and the flight listing send nothing at all when every argument
    is [None].  The search by flight number and the amenity search do no
    filtering: each argument goes out under its key whatever it is, [None]
    included, and the amenity search always asks for five results. *)
Theorem tool_query_parameters
    (BASE_URL id_token : string) (client_headers : gmap string string)
    (airline flight_number query : Tools.PyValue) :
  Tools.params (Tools.search_airports_request BASE_URL id_token
                  client_headers Tools.PyNone Tools.PyNone Tools.PyNone) = ∅ /\
  Tools.params (Tools.list_flights_request BASE_URL id_token
                  client_headers Tools.PyNone Tools.PyNone Tools.PyNone) = ∅ /\
  (forall k v,
     Tools.params (PassThroughTools.search_flights_by_number_request
                     BASE_URL id_token client_headers airline flight_number)
       !! k = Some v <->
     (k = "airline" /\ v = airline) \/
     (k = "flight_number" /\ v = flight_number)) /\
  (forall k v,
     Tools.params (PassThroughTools.search_amenities_request
                     BASE_URL id_token client_headers query) !! k = Some v <->
     (k = "top_k" /\ v = Tools.PyStr "5") \/ (k = "query" /\ v = query)).
Proof.
  split; [|split; [|split]].
  - unfold Tools.search_airports_request, Tools.filter_none_values. simpl.
    apply map_eq. intros k. rewrite lookup_empty.
    apply eq_None_not_Some. intros [v Hv].
    apply map_lookup_filter_Some in Hv as [Hv Hne]. simpl in Hne.
    rewrite !lookup_insert_Some, lookup_empty in Hv.
    split_cases Hv; simplify_eq; done.
  - unfold Tools.list_flights_request, Tools.filter_none_values. simpl.
    apply map_eq. intros k. rewrite lookup_empty.
    apply eq_None_not_Some. intros [v Hv].
    apply map_lookup_filter_Some in Hv as [Hv Hne]. simpl in Hne.
    rewrite !lookup_insert_Some, lookup_empty in Hv.
    split_cases Hv; simplify_eq; done.
  - intros k v. simpl. rewrite !lookup_insert_Some, lookup_empty.
    split; intros H; split_cases H; simplify_eq; pick_disjunct.
  - intros k v. simpl. rewrite !lookup_insert_Some, lookup_empty.
    split; intros H; split_cases H; simplify_eq; pick_disjunct.
Qed.

(** X20.  When the service returns more than two elements, the answer of
    the airport search and of the flight listing is fixed by the number of
    elements and the first two of them: two lists of equal length that
    start alike give the same text, whatever follows. *)
Theorem long_answer_ignores_tail
    (BASE_URL id_token : string) (Item : Type) (py_str : Item -> string)
    (client_get1 client_get2 : Tools.Request -> list Item)
    (client_headers : gmap string string) (a1 a2 a3 : Tools.PyValue) :
  (forall request,
     2 < length (client_get1 request) /\
     length (client_get2 request) = length (client_get1 request) /\
     take 2 (client_get2 request) = take 2 (client_get1 request)) ->
  Tools.search_airports BASE_URL id_token Item py_str client_get1
    client_headers a1 a2 a3 =
  Tools.search_airports BASE_URL id_token Item py_str client_get2
    client_headers a1 a2 a3 /\
  Tools.list_flights BASE_URL id_token Item py_str client_get1
    client_headers a1 a2 a3 =
  Tools.list_flights BASE_URL id_token Item py_str client_get2
    client_headers a1 a2 a3.
Proof.
  intros Hsame. split.
  - unfold Tools.search_airports.
    destruct (Hsame (Tools.search_airports_request BASE_URL id_token
                       client_headers a1 a2 a3)) as (Hlen & Hl & Ht).
    cbv zeta. rewrite Hl, Ht. repeat case_decide; (done || lia).
  - unfold Tools.list_flights.
    destruct (Hsame (Tools.list_flights_request BASE_URL id_token
                       client_headers a1 a2 a3)) as (Hlen & Hl & Ht).
    cbv zeta. rewrite Hl, Ht. repeat case_decide; (done || lia).
Qed.

Lemma long_answer_ignores_tail_witness :
  Tools.search_airports "http://127.0.0.1:8080" "tok" nat pretty
    (fun _ => [1; 2; 3; 4]) ∅ Tools.PyNone Tools.PyNone Tools.PyNone =
  Tools.search_airports "http://127.0.0.1:8080" "tok" nat pretty
    (fun _ => [1; 2; 7; 9]) ∅ Tools.PyNone Tools.PyNone Tools.PyNone.
Proof.
  refine (proj1
    (long_answer_ignores_tail "http://127.0.0.1:8080" "tok" nat pretty
       (fun _ => [1; 2; 3; 4]) (fun _ => [1; 2; 7; 9]) ∅
       Tools.PyNone Tools.PyNone Tools.PyNone _)).
  intros _. simpl. repeat split. lia.
Defined.

(** ** The login handler *)

(** X21.  The login handler checks the credential first and reads the
    session identifier before it hands anything to the orchestrator: with
    no credential it fails with status 401, and with a credential but a
    session without identifier it fails with [KeyError]; in both cases
    the context is left as it was, whatever
    [set_user_session_header] would do. *)
Theorem login_google_guards
    (set_user_session_header :
       string -> string -> M LangChainTools.Ctx unit)
    (c : LangChainTools.Ctx) (user_id_token : string)
    (referer : option string) :
  LangChainTools.uuid (LangChainTools.session c) = None ->
  LangChainLogin.login_google set_user_session_header None referer c =
    (Raise (HTTPException 401%Z "No user credentials found"), c) /\
  LangChainLogin.login_google set_user_session_header (Some user_id_token)
    referer c = (Raise (KeyError "uuid"), c).
Proof.
  intros Hu. split; [done|].
  unfold LangChainLogin.login_google, bind, LangChainTools.session_uuid.
  by rewrite Hu.
Qed.

Lemma login_google_guards_witness :
  LangChainLogin.login_google
    (fun _ _ => modify (LangChainTools.set_connector false))
    (Some "credential") (Some "http://localhost:8081/")
    {| LangChainTools.app := LangChainTools.init;
       LangChainTools.session :=
         {| LangChainTools.uuid := None;
            LangChainTools.history := None |} |} =
    (Raise (KeyError "uuid"),
     {| LangChainTools.app := LangChainTools.init;
        LangChainTools.session :=
          {| LangChainTools.uuid := None;
             LangChainTools.history := None |} |}).
Proof.
  refine (proj2
    (login_google_guards
       (fun _ _ => modify (LangChainTools.set_connector false))
       {| LangChainTools.app := LangChainTools.init;
          LangChainTools.session :=
            {| LangChainTools.uuid := None;
               LangChainTools.history := None |} |}
       "credential" (Some "http://localhost:8081/") _)).
  reflexivity.
Defined.

(** ** The experiment script *)

Lemma experiment_rows (f : nat -> string -> Experiment.Answer)
    (l : list string) :
  let rows :=
    mjoin (imap (fun i question =>
                   match f i question with
                   | Experiment.Answered output steps =>
                       [[question; output; steps]]
                   | Experiment.Failed _ => []
                   end) l) in
  Forall (fun row => length row = 3) rows /\
  (fun row => default "" (head row)) <$> rows `sublist_of` l /\
  forall row, row ∈ rows <->
    exists i question output steps,
      l !! i = Some question /\
      f i question = Experiment.Answered output steps /\
      row = [question; output; steps].
Proof.
  revert f. induction l as [|q l IH]; intros f; cbv zeta.
  - simpl. split; [constructor|]. split; [constructor|].
    intros row. split; [by intros ?%elem_of_nil|].
    by intros (i & ? & ? & ? & ? & _).
  - rewrite imap_cons. simpl.
    destruct (IH (f ∘ S)) as (Hlen & Hsub & Hin). cbv zeta in Hlen, Hsub, Hin.
    destruct (f 0 q) as [output steps|err] eqn:Hq; simpl.
    + split; [by constructor|]. split; [by constructor|].
      intros row. rewrite elem_of_cons, Hin. split.
      * intros [->|(i & question & o & s & Hl & Hf & ->)].
        -- by exists 0, q, output, steps.
        -- by exists (S i), question, o, s.
      * intros ([|i] & question & o & s & Hl & Hf & ->).
        -- left. simpl in Hl. injection Hl as <-. rewrite Hq in Hf.
           by injection Hf as <- <-.
        -- right. by exists i, question, o, s.
    + split; [done|]. split; [by constructor|].
      intros row. rewrite Hin. split.
      * intros (i & question & o & s & Hl & Hf & ->).
        by exists (S i), question, o, s.
      * intros ([|i] & question & o & s & Hl & Hf & ->).
        -- simpl in Hl. injection Hl as <-. rewrite Hq in Hf. discriminate.
        -- by exists i, question, o, s.
Qed.


(** ** More on the similarity query *)

Lemma filter_sublist_mono {A} (P Q : A -> Prop)
    `{!forall x, Decision (P x)} `{!forall x, Decision (Q x)} (l : list A) :
  (forall x, P x -> Q x) ->
  filter P l `sublist_of` filter Q l.
Proof.
  intros HPQ. induction l as [|x l IH]; [done|].
  rewrite !filter_cons.
  destruct (decide (P x)) as [HP|HP].
  - rewrite decide_True by auto. by apply sublist_skip.
  - destruct (decide (Q x)); [by apply sublist_cons|done].
Qed.

Section SimilaritySearchMore.
Import AlloyDB.

Variable vector : Type.
Variable cosine_distance : vector -> vector -> Q.
Variable query_embedding : vector.

Local Abbreviation sim := (similarity vector cosine_distance query_embedding).
Local Abbreviation search :=
  (semantic_similiarity_search vector cosine_distance).
Local Abbreviation matches_of :=
  (vector_matches vector cosine_distance).
Local Abbreviation columns :=
  (fun r : products.row =>
     {| product_name := products.product_name r;
        list_price := products.list_price r;
        description := products.description r |}).

(** For a limit that is not negative the search returns, and this is the
    list it returns. *)
Lemma search_run (db : Database vector) (similarity_theshold : Q) (top_k : Z) :
  (0 <= top_k)%Z ->
  search db query_embedding similarity_theshold top_k =
    Return (columns <$>
              filter (fun p => products.product_id p ∈
                         (product_id vector <$>
                            matches_of db query_embedding similarity_theshold
                              (Z.to_nat top_k)))
                     (products_table vector db)).
Proof.
  intros Hk. unfold semantic_similiarity_search.
  by rewrite decide_False by lia.
Qed.

(** X23.  [product_id] is the primary key of [products]: when no two
    product rows share an identifier, the search returns at most [top_k]
    rows. *)
Theorem similarity_search_at_most_top_k
    (db : Database vector) (similarity_theshold : Q) (top_k : Z) :
  NoDup (products.product_id <$> products_table vector db) ->
  (0 <= top_k)%Z ->
  exists results,
    search db query_embedding similarity_theshold top_k = Return results /\
    (Z.of_nat (length results) <= top_k)%Z.
Proof.
  intros Hkey Hk. eexists. split; [by apply search_run|].
  rewrite length_fmap.
  set (ms := matches_of db query_embedding similarity_theshold
               (Z.to_nat top_k)).
  set (ps := filter (fun p => products.product_id p ∈ (product_id vector <$> ms))
               (products_table vector db)).
  assert (Hlen : length ps <= length ms).
  { rewrite <- (length_fmap products.product_id ps).
    rewrite <- (length_fmap (product_id vector) ms).
    apply submseteq_length, NoDup_submseteq.
    - eapply sublist_NoDup; [exact Hkey|].
      apply fmap_sublist, sublist_filter.
    - intros x (p & -> & Hp)%list_elem_of_fmap.
      by apply list_elem_of_filter in Hp as [? _]. }
  assert (length ms <= Z.to_nat top_k).
  { unfold ms, vector_matches. rewrite length_take. lia. }
  lia.
Qed.

(** X24.  When no two embedding rows are equally similar to the query,
    so that the rows a limit selects are fixed by the SQL, raising the
    limit never loses a row: whatever is returned for a limit is also
    returned for any larger limit. *)
Theorem similarity_search_monotone_in_top_k
    (db : Database vector) (similarity_theshold : Q) (top_k top_k' : Z)
    (results results' : list result_row) :
  (forall i j e e',
     product_embeddings vector db !! i = Some e ->
     product_embeddings vector db !! j = Some e' ->
     (sim e == sim e')%Q -> i = j) ->
  (top_k <= top_k')%Z ->
  search db query_embedding similarity_theshold top_k = Return results ->
  search db query_embedding similarity_theshold top_k' = Return results' ->
  forall r, r ∈ results -> r ∈ results'.
Proof.
  intros _ Hk. unfold semantic_similiarity_search.
  destruct (decide (top_k < 0)%Z) as [|Hpos]; [done|].
  destruct (decide (top_k' < 0)%Z) as [|Hpos']; [done|].
  intros [= <-] [= <-] r Hr.
  apply (elem_of_sublist _ _ _ Hr). apply fmap_sublist, filter_sublist_mono.
  intros p (e & Hid & He)%list_elem_of_fmap.
  apply list_elem_of_fmap. exists e. split; [done|].
  revert He. unfold vector_matches.
  replace (Z.to_nat top_k) with (Z.to_nat top_k `min` Z.to_nat top_k') by lia.
  rewrite <- take_take. apply subseteq_take.
Qed.

(** X25.  With a limit no smaller than the number of embedding rows, the
    limit cuts nothing: a row is returned exactly when it is the row of a
    product that has an embedding whose similarity is strictly above the
    threshold. *)
Theorem similarity_search_complete_for_large_top_k
    (db : Database vector) (similarity_theshold : Q) (top_k : Z) :
  (Z.of_nat (length (product_embeddings vector db)) <= top_k)%Z ->
  exists results,
    search db query_embedding similarity_theshold top_k = Return results /\
    forall r, r ∈ results <->
      exists p e,
        p ∈ products_table vector db /\ r = columns p /\
        e ∈ product_embeddings vector db /\
        product_id vector e = products.product_id p /\
        (similarity_theshold < sim e)%Q.
Proof.
  intros Hk. eexists. split; [apply search_run; lia|].
  set (above := filter (fun e => (similarity_theshold < sim e)%Q)
                  (product_embeddings vector db)).
  assert (Hm : forall e,
    e ∈ matches_of db query_embedding similarity_theshold (Z.to_nat top_k) <->
    e ∈ product_embeddings vector db /\ (similarity_theshold < sim e)%Q).
  { intros e. unfold vector_matches. fold above.
    rewrite take_ge.
    - rewrite merge_sort_Permutation. unfold above.
      rewrite list_elem_of_filter. tauto.
    - rewrite merge_sort_Permutation. unfold above.
      pose proof (length_filter
        (fun e => (similarity_theshold < sim e)%Q)
        (product_embeddings vector db)). lia. }
  intros r. rewrite list_elem_of_fmap. split.
  - intros (p & -> & Hp). apply list_elem_of_filter in Hp as [Hid Hp].
    apply list_elem_of_fmap in Hid as (e & Hid & He).
    apply Hm in He as [He Hsim]. by exists p, e.
  - intros (p & e & Hp & -> & He & Hid & Hsim).
    exists p. split; [done|]. apply list_elem_of_filter. split; [|done].
    apply list_elem_of_fmap. exists e. split; [done|]. by apply Hm.
Qed.

(** X26.  When the search returns, it returns no row at all if the limit
    is zero or if no embedding row has a similarity strictly above the
    threshold, which covers an empty [product_embeddings]. *)
Theorem similarity_search_empty_results
    (db : Database vector) (similarity_theshold : Q) (top_k : Z)
    (results : list result_row) :
  search db query_embedding similarity_theshold top_k = Return results ->
  top_k = 0%Z \/
  (forall e, e ∈ product_embeddings vector db ->
             (sim e <= similarity_theshold)%Q) ->
  results = [].
Proof.
  unfold semantic_similiarity_search.
  destruct (decide (top_k < 0)%Z) as [Hneg|Hpos]; [done|].
  intros [= <-] Hempty.
  assert (Hm : matches_of db query_embedding similarity_theshold
                 (Z.to_nat top_k) = []).
  { unfold vector_matches. destruct Hempty as [->|Hlow]; [done|].
    replace (filter _ (product_embeddings vector db)) with
      (@nil (embedding_row vector)); [apply take_nil|].
    symmetry. apply elem_of_nil_inv. intros e He.
    apply list_elem_of_filter in He as [Hsim He].
    apply Hlow in He. by apply Qlt_not_le in Hsim. }
  cbv zeta. rewrite Hm. simpl.
  replace (filter _ (products_table vector db)) with (@nil products.row);
    [done|].
  symmetry. apply elem_of_nil_inv. intros p Hp.
  apply list_elem_of_filter in Hp as [Hp _]. by apply elem_of_nil in Hp.
Qed.

End SimilaritySearchMore.

(** ** What a chat request can touch *)

(** X27.  A chat request, whatever its prompt and however it ends, can
    only add to the stored conversation: the session identifier stays, what
    was in the history stays in front, and at most two turns follow it.  In
    the LangChain demo it adds no entry to the map and removes none, every
    session keeps the client of its agent, and no client is opened or
    closed; in the Vertex AI demo the map of assistants and the clients are
    left as they were. *)
Theorem chat_only_extends_history
    (ainvoke : LangChainTools.UserAgent -> string -> AgentOutcome)
    (invoke : VertexAI.ChatAssistant -> string -> AgentOutcome)
    (markdown : string -> string) (prompt : string)
    (c : LangChainTools.Ctx) (v : VertexAI.Ctx) :
  let c' := (LangChainTools.chat_handler ainvoke markdown prompt c).2 in
  let v' := (VertexAI.chat_handler invoke markdown prompt v).2 in
  (LangChainTools.clients (LangChainTools.app c') =
     LangChainTools.clients (LangChainTools.app c) /\
   (forall id,
      LangChainTools.client <$>
        LangChainTools._user_sessions (LangChainTools.app c') !! id =
      LangChainTools.client <$>
        LangChainTools._user_sessions (LangChainTools.app c) !! id) /\
   LangChainTools.uuid (LangChainTools.session c') =
     LangChainTools.uuid (LangChainTools.session c) /\
   match LangChainTools.history (LangChainTools.session c) with
   | None => LangChainTools.history (LangChainTools.session c') = None
   | Some h =>
       exists more, length more <= 2 /\
         LangChainTools.history (LangChainTools.session c') = Some (h ++ more)
   end) /\
  (VertexAI.chat_assistants (VertexAI.app v') =
     VertexAI.chat_assistants (VertexAI.app v) /\
   VertexAI.clients (VertexAI.app v') = VertexAI.clients (VertexAI.app v) /\
   VertexAI.uuid (VertexAI.session v') = VertexAI.uuid (VertexAI.session v) /\
   match VertexAI.messages (VertexAI.session v) with
   | None => VertexAI.messages (VertexAI.session v') = None
   | Some m =>
       exists more, length more <= 2 /\
         VertexAI.messages (VertexAI.session v') = Some (m ++ more)
   end).
Proof.
  cbv zeta. split.
  - rewrite (chat_handler_app ainvoke markdown prompt c).
    split; [done|]. split; [done|].
    destruct c as [o [u h]].
    unfold LangChainTools.chat_handler.
    destruct (decide (prompt = "")) as [|Hp]; simpl.
    { split; [done|]. destruct h as [h|]; [|done].
      exists []. split; [simpl; lia|by rewrite app_nil_r]. }
    unfold bind, get. simpl. destruct u as [id|]; simpl.
    2:{ split; [done|]. destruct h as [h|]; [|done].
        exists []. split; [simpl; lia|by rewrite app_nil_r]. }
    destruct h as [h|]; [|done].
    unfold LangChainTools.session_history_append, bind,
      LangChainTools.session_history, modify, LangChainTools.session_uuid,
      LangChainTools.user_session_invoke, bind,
      LangChainTools.get_user_session, LangChainTools.invoke. simpl.
    destruct (LangChainTools._user_sessions o !! id) as [a|]; simpl.
    + destruct (ainvoke a prompt); simpl; (split; [done|]).
      * eexists [_; _]. split; [simpl; lia|]. by rewrite <- app_assoc.
      * eexists [_]. split; [simpl; lia|done].
      * eexists [_]. split; [simpl; lia|done].
    + split; [done|]. eexists [_]. split; [simpl; lia|done].
  - destruct v as [o [u m]].
    unfold VertexAI.chat_handler.
    destruct (decide (prompt = "")) as [|Hp]; simpl.
    { repeat split. destruct m as [m|]; [|done].
      exists []. split; [simpl; lia|by rewrite app_nil_r]. }
    unfold bind, get. simpl. destruct u as [id|]; simpl.
    2:{ repeat split. destruct m as [m|]; [|done].
        exists []. split; [simpl; lia|by rewrite app_nil_r]. }
    destruct m as [m|]; [|done].
    unfold VertexAI.session_messages_extend, bind,
      VertexAI.session_messages, modify, VertexAI.session_uuid,
      VertexAI.chat_assistants_get. simpl.
    destruct (VertexAI.chat_assistants o !! id) as [a|]; simpl.
    + destruct (invoke a prompt); simpl; repeat split.
      * eexists [_; _]. split; [simpl; lia|]. by rewrite <- app_assoc.
      * eexists [_]. split; [simpl; lia|done].
      * eexists [_]. split; [simpl; lia|done].
    + repeat split. eexists [_]. split; [simpl; lia|done].
Qed.

Lemma similarity_search_at_most_top_k_witness :
  exists results,
    AlloyDB.semantic_similiarity_search Q sample_distance sample_catalogue
      0%Q (2 # 5)%Q 2 = Return results /\
    (Z.of_nat (length results) <= 2)%Z.
Proof.
  apply (similarity_search_at_most_top_k Q sample_distance 0%Q
           sample_catalogue (2 # 5)%Q 2).
  - apply (bool_decide_unpack _). vm_compute. exact I.
  - lia.
Defined.

Lemma similarity_search_monotone_in_top_k_witness :
  {| AlloyDB.product_name := "kite"; AlloyDB.list_price := 5;
     AlloyDB.description := "a kite" |} ∈
  match AlloyDB.semantic_similiarity_search Q sample_distance
          sample_catalogue 0%Q (2 # 5)%Q 2 with
  | Return results => results
  | Raise _ => []
  end.
Proof.
  apply (similarity_search_monotone_in_top_k Q sample_distance 0%Q
           sample_catalogue (2 # 5)%Q 1 2
           [ {| AlloyDB.product_name := "kite"; AlloyDB.list_price := 5;
                AlloyDB.description := "a kite" |} ]).
  - intros [|[|[|i]]] [|[|[|j]]] e e' He He'; simpl in He, He';
      try discriminate He; try discriminate He';
      injection He as <-; injection He' as <-;
      vm_compute; intros Heq; (reflexivity || discriminate Heq).
  - lia.
  - vm_compute. reflexivity.
  - vm_compute. reflexivity.
  - apply list_elem_of_here.
Defined.

Lemma similarity_search_empty_results_witness :
  match AlloyDB.semantic_similiarity_search Q sample_distance
          sample_catalogue 0%Q (2 # 5)%Q 0 with
  | Return results => results
  | Raise _ => []
  end = [].
Proof.
  apply (similarity_search_empty_results Q sample_distance 0%Q
           sample_catalogue (2 # 5)%Q 0).
  - vm_compute. reflexivity.
  - by left.
Defined.

Lemma similarity_search_complete_for_large_top_k_witness :
  exists results,
    AlloyDB.semantic_similiarity_search Q sample_distance sample_catalogue
      0%Q (3 # 5)%Q 3 = Return results /\
    forall r, r ∈ results <->
      exists p e,
        p ∈ AlloyDB.products_table Q sample_catalogue /\
        r = {| AlloyDB.product_name := AlloyDB.products.product_name p;
               AlloyDB.list_price := AlloyDB.products.list_price p;
               AlloyDB.description := AlloyDB.products.description p |} /\
        e ∈ AlloyDB.product_embeddings Q sample_catalogue /\
        AlloyDB.product_id Q e = AlloyDB.products.product_id p /\
        (3 # 5 < AlloyDB.similarity Q sample_distance 0%Q e)%Q.
Proof.
  apply (similarity_search_complete_for_large_top_k Q sample_distance 0%Q
           sample_catalogue (3 # 5)%Q 3).
  simpl. lia.
Defined.
